(** * Feature-engineering pipeline for churn prediction

    A shallow embedding of [src/python/utils.py] and of the module-level
    script [src/python/feature_engineering.py].

    - A dataframe is the list of its rows, in row order.
    - A [datetime64] cell is [option Z]: nanoseconds since the epoch, with
      [None] for [NaT].  Every comparison with [NaT] is [False], and the
      [min]/[max] reductions skip it (an empty or all-[NaT] column reduces
      to [NaT]).
    - [int64] columns are [Z].
    - [int64] and string columns hold no missing value.
    - [float64] columns are values of a type [R] with the operations of the
      interface [Float64].  The script is written once over that interface
      and read at two instances: the exact rationals [Q] (the arithmetic
      the formulas are meant in; no cell is missing) and IEEE-754 binary64
      (the arithmetic pandas executes).
    - An uncaught exception ends the script; what had been printed so far
      and the state of the output file are kept in the result. *)

From Stdlib Require Import ZArith QArith Qabs List String Bool Lia Lqa Sorted.
From Stdlib Require Import Floats Uint63.
Import ListNotations.

Local Open Scope Z_scope.

(** ** Arithmetic of the float64 columns *)

Class Float64 (R : Type) : Type := {
  f_zero : R;
  f_of_Z : Z -> R;          (* int64 -> float64 conversion *)
  f_add : R -> R -> R;
  f_div : R -> R -> R;
  f_abs : R -> R;
  f_gt0 : R -> bool;        (* [x > 0] *)
  f_lt0 : R -> bool;        (* [x < 0] *)
  f_isna : R -> bool        (* a missing cell, [NaN] *)
}.

(** Exact rationals. *)
#[export] Instance Float64_Q : Float64 Q := {
  f_zero := 0%Q;
  f_of_Z := inject_Z;
  f_add := Qplus;
  f_div := Qdiv;
  f_abs := Qabs;
  f_gt0 := fun x => negb (Qle_bool x 0);
  f_lt0 := fun x => negb (Qle_bool 0 x);
  f_isna := fun _ => false
}.

(** IEEE-754 binary64, as numpy computes.  The conversion from [int64] is
    exact below [2^53]. *)
Definition float_of_Z (z : Z) : float :=
  if z <? 0 then PrimFloat.opp (PrimFloat.of_uint63 (Uint63.of_Z (- z)))
  else PrimFloat.of_uint63 (Uint63.of_Z z).

#[export] Instance Float64_binary64 : Float64 float := {
  f_zero := 0%float;
  f_of_Z := float_of_Z;
  f_add := PrimFloat.add;
  f_div := PrimFloat.div;
  f_abs := PrimFloat.abs;
  f_gt0 := fun x => PrimFloat.ltb 0%float x;
  f_lt0 := fun x => PrimFloat.ltb x 0%float;
  f_isna := PrimFloat.is_nan
}.

(** ** Timestamps *)

Definition Timestamp : Type := option Z.

(** Nanoseconds in a day: [pd.Timedelta(days=1)]. *)
Definition DAY : Z := 86400 * 1000000000.

(** [a < b], [a <= b], [a >= b] on timestamps; [False] when either is
    [NaT]. *)
Definition ts_ltb (a b : Timestamp) : bool :=
  match a, b with Some x, Some y => x <? y | _, _ => false end.
Definition ts_leb (a b : Timestamp) : bool :=
  match a, b with Some x, Some y => x <=? y | _, _ => false end.
Definition ts_geb (a b : Timestamp) : bool :=
  match a, b with Some x, Some y => y <=? x | _, _ => false end.

(** [Series.min()] and [Series.max()] of a datetime column. *)
Fixpoint ts_min (l : list Timestamp) : Timestamp :=
  match l with
  | [] => None
  | None :: l' => ts_min l'
  | Some x :: l' =>
      match ts_min l' with Some m => Some (Z.min x m) | None => Some x end
  end.

Fixpoint ts_max (l : list Timestamp) : Timestamp :=
  match l with
  | [] => None
  | None :: l' => ts_max l'
  | Some x :: l' =>
      match ts_max l' with Some m => Some (Z.max x m) | None => Some x end
  end.

(** [m] is the greatest (least) timestamp of a column. *)
Definition is_max_ts (m : Z) (l : list Timestamp) : Prop :=
  In (Some m) l /\ forall x, In (Some x) l -> x <= m.
Definition is_min_ts (m : Z) (l : list Timestamp) : Prop :=
  In (Some m) l /\ forall x, In (Some x) l -> m <= x.

(** [Timedelta.days]: whole days, rounded towards minus infinity. *)
Definition days (delta : Z) : Z := delta / DAY.

(** ** Logging and exceptions *)

Inductive Level : Type := INFO | WARN | ERROR | STDOUT.

Definition LogLine : Type := (Level * string)%type.

Definition log_info (message : string) : LogLine := (INFO, message).
Definition log_warn (message : string) : LogLine := (WARN, message).
Definition log_error (message : string) : LogLine := (ERROR, message).

Inductive Exception : Type :=
  | ValueError (message : string)
  | ZeroDivisionError.

Section Pipeline.

Context {R : Type} `{Float64 R}.

(** ** Transactions *)

Record Transaction : Type := mkTransaction {
  invoice : string;
  stock_code : string;
  customer_id : Z;
  quantity : Z;
  price : R;
  country : string;
  invoice_date : Timestamp;
  total_amount : R;
  is_return : bool
}.

Definition DataFrame : Type := list Transaction.

(** ** utils.py *)

(** [validate_date_column(df, 'invoice_date')]: the column exists and has
    a datetime dtype (both by the type of [DataFrame]); [NaT] cells are
    only warned about. *)
Definition validate_date_column (df : DataFrame) : list LogLine :=
  if existsb (fun t => match invoice_date t with None => true | Some _ => false end) df
  then [log_warn "NaT values found in invoice_date"]
  else [].

(** [validate_no_missing_values(df, ['customer_id', 'invoice_date',
    'quantity', 'price'])]: the two integer columns hold no missing value
    (they are read with [dtype=int]); a missing date or price is warned
    about. *)
Definition validate_no_missing_values (df : DataFrame) : list LogLine :=
  if existsb (fun t => match invoice_date t with None => true | Some _ => false end
                       || f_isna (price t)) df
  then [log_warn "Missing values in critical columns"]
  else [].

Definition split_by_time_window (df : DataFrame)
    (observation_end outcome_start : Z) : DataFrame * DataFrame :=
  let obs_end := Some observation_end in
  let out_start := Some outcome_start in
  let observation_df := filter (fun t => ts_ltb (invoice_date t) obs_end) df in
  let outcome_df := filter (fun t => ts_geb (invoice_date t) out_start) df in
  (observation_df, outcome_df).

(** The two lines [split_by_time_window] prints. *)
Definition split_log : list LogLine :=
  [log_info "Observation window"; log_info "Outcome window"].

Definition check_data_leakage (observation_df outcome_df : DataFrame)
  : Exception + list LogLine :=
  let obs_max := ts_max (map invoice_date observation_df) in
  let outcome_min := ts_min (map invoice_date outcome_df) in
  if ts_geb obs_max outcome_min
  then inl (ValueError "Data leakage detected")
  else inr [log_info "No temporal data leakage detected"].

(** ** pandas primitives used by the script *)

(** Keys of [groupby('customer_id')]: the distinct identifiers, ascending. *)
Fixpoint insert_key (k : Z) (l : list Z) : list Z :=
  match l with
  | [] => [k]
  | x :: l' =>
      if k <? x then k :: l
      else if k =? x then l
      else x :: insert_key k l'
  end.

Definition group_keys (l : list Z) : list Z := fold_right insert_key [] l.

(** The rows of one customer, in row order. *)
Definition rows_of (c : Z) (df : DataFrame) : DataFrame :=
  filter (fun t => customer_id t =? c) df.

(** A keyed table with the row [f c] at each key [c]. *)
Definition tabulate {A : Type} (f : Z -> A) (keys : list Z) : list (Z * A) :=
  map (fun c => (c, f c)) keys.

(** [df.groupby('customer_id').agg(...)]: one row per key, the aggregate of
    that customer's rows. *)
Definition groupby {A : Type} (df : DataFrame) (agg : DataFrame -> A)
  : list (Z * A) :=
  tabulate (fun c => agg (rows_of c df)) (group_keys (map customer_id df)).

(** [Series.nunique()] on a string column. *)
Definition nunique (l : list string) : Z :=
  Z.of_nat (List.length (nodup string_dec l)).

(** [Series.sum()] on a float column: missing cells are skipped. *)
Definition fsum (l : list R) : R :=
  fold_left f_add (filter (fun x => negb (f_isna x)) l) f_zero.

(** [Series.sum()] on an integer column and [Series.mean()] of it. *)
Definition zsum (l : list Z) : Z := fold_left Z.add l 0.
Definition zmean (l : list Z) : R :=
  f_div (f_of_Z (zsum l)) (f_of_Z (Z.of_nat (List.length l))).

(** [Series.unique()]: order of first appearance. *)
Fixpoint unique (l : list Z) : list Z :=
  match l with
  | [] => []
  | x :: l' => x :: filter (fun y => negb (y =? x)) (unique l')
  end.

Definition isin (c : Z) (values : list Z) : bool := existsb (Z.eqb c) values.

(** [Series.duplicated().any()]. *)
Fixpoint duplicated_any (l : list Z) : bool :=
  match l with
  | [] => false
  | x :: l' => isin x l' || duplicated_any l'
  end.

(** The right-hand values a key joins with. *)
Definition matches {B : Type} (k : Z) (r : list (Z * B)) : list B :=
  map snd (filter (fun kb => fst kb =? k) r).

(** [l.merge(r, on='customer_id', how='left')]. *)
Definition merge_left {A B : Type} (l : list (Z * A)) (r : list (Z * B))
  : list (Z * (A * option B)) :=
  flat_map (fun ka =>
    match matches (fst ka) r with
    | [] => [(fst ka, (snd ka, None))]
    | bs => map (fun b => (fst ka, (snd ka, Some b))) bs
    end) l.

(** [l.merge(r, on='customer_id')], an inner join. *)
Definition merge_inner {A B : Type} (l : list (Z * A)) (r : list (Z * B))
  : list (Z * (A * B)) :=
  flat_map (fun ka =>
    map (fun b => (fst ka, (snd ka, b))) (matches (fst ka) r)) l.

(** [l.merge(r, on='customer_id', how='right')]. *)
Definition merge_right {A B : Type} (l : list (Z * A)) (r : list (Z * B))
  : list (Z * (option A * B)) :=
  flat_map (fun kb =>
    match matches (fst kb) l with
    | [] => [(fst kb, (None, snd kb))]
    | xs => map (fun a => (fst kb, (Some a, snd kb))) xs
    end) r.

(** [s.reindex(index, fill_value=v)] for a series with distinct labels. *)
Definition reindex {A : Type} (s : list (Z * A)) (index : list Z) (fill_value : A)
  : list A :=
  map (fun k => hd fill_value (matches k s)) index.

(** [fillna(v)]. *)
Definition fillna {A : Type} (v : A) (x : option A) : A :=
  match x with Some a => a | None => v end.

(** A column taken through a join that may have left the row unmatched. *)
Definition col {A B : Type} (f : A -> option B) (x : option A) : option B :=
  match x with Some a => f a | None => None end.

(** ** Configuration *)

Record Config : Type := mkConfig {
  OBS_START : Z;
  OBS_END : Z;
  OUTCOME_START : Z;
  OUTCOME_END : Z;
  MIN_TENURE_DAYS : Z;
  MIN_FREQUENCY : Z
}.

(** ** Step 3: eligible customers *)

Definition min_acquisition_date (cfg : Config) : Z :=
  OBS_END cfg - MIN_TENURE_DAYS cfg * DAY.

Record CustomerStats : Type := mkCustomerStats {
  first_purchase : Timestamp;
  n_transactions : Z
}.

Definition customer_stats (observation_df : DataFrame)
  : list (Z * CustomerStats) :=
  groupby observation_df (fun g =>
    {| first_purchase := ts_min (map invoice_date g);
       n_transactions := nunique (map invoice g) |}).

Definition eligible_customers (cfg : Config) (observation_df : DataFrame)
  : list Z :=
  map fst
    (filter (fun cs =>
       ts_leb (first_purchase (snd cs)) (Some (min_acquisition_date cfg))
       && (MIN_FREQUENCY cfg <=? n_transactions (snd cs)))
     (customer_stats observation_df)).

(** [observation_df[observation_df['customer_id'].isin(eligible_customers)]] *)
Definition restrict (observation_df : DataFrame) (eligible : list Z)
  : DataFrame :=
  filter (fun t => isin (customer_id t) eligible) observation_df.

(** ** Step 4: RFM *)

Record RfmRow : Type := mkRfmRow {
  rfm_recency : option Z;
  rfm_frequency : Z;
  rfm_monetary_net : R;
  rfm_monetary_gross : R
}.

Definition rfm (cfg : Config) (observation_df : DataFrame)
  : list (Z * RfmRow) :=
  groupby observation_df (fun g =>
    {| rfm_recency :=
         option_map (fun m => days (OBS_END cfg - m))
                    (ts_max (map invoice_date g));
       rfm_frequency := nunique (map invoice g);
       rfm_monetary_net := fsum (map total_amount g);
       rfm_monetary_gross :=
         fsum (filter f_gt0 (map total_amount g)) |}).

(** ** Step 5: behavioral features *)

Record BasketRow : Type := mkBasketRow {
  bm_avg_items_per_basket : R;
  bm_avg_units_per_line : R
}.

(** The per-invoice quantity sums of one customer's purchase lines. *)
Definition basket_sizes (g : DataFrame) : list Z :=
  map (fun i => zsum (map quantity (filter (fun t => String.eqb (invoice t) i) g)))
      (nodup string_dec (map invoice g)).

Definition basket_metrics (observation_df : DataFrame)
  : list (Z * BasketRow) :=
  groupby (filter (fun t => quantity t >? 0) observation_df) (fun g =>
    {| bm_avg_items_per_basket := zmean (basket_sizes g);
       bm_avg_units_per_line := zmean (map quantity g) |}).

Record BehavioralAgg : Type := mkBehavioralAgg {
  ba_unique_products : Z;
  ba_first_purchase_date : Timestamp;
  ba_last_purchase_date : Timestamp
}.

Record BehavioralRow : Type := mkBehavioralRow {
  b_unique_products : Z;
  b_first_purchase_date : Timestamp;
  b_last_purchase_date : Timestamp;
  b_avg_items_per_basket : option R;
  b_avg_units_per_line : option R;
  b_days_as_customer : option Z;
  b_purchase_velocity : option R;
  b_avg_days_between_purchases : option R
}.

(** [(last - first).dt.days] *)
Definition span_days (last first : Timestamp) : option Z :=
  match last, first with
  | Some l, Some f => Some (days (l - f))
  | _, _ => None
  end.

(** [frequency / ((days_as_customer + 1) / 30)] *)
Definition velocity (frequency d : Z) : R :=
  f_div (f_of_Z frequency) (f_div (f_of_Z (d + 1)) (f_of_Z 30)).

(** [(days_as_customer + 1) / frequency] *)
Definition avg_days (frequency d : Z) : R :=
  f_div (f_of_Z (d + 1)) (f_of_Z frequency).

Definition behavioral (observation_df : DataFrame)
    (rfm_table : list (Z * RfmRow)) : list (Z * BehavioralRow) :=
  let agg := groupby observation_df (fun g =>
    {| ba_unique_products := nunique (map stock_code g);
       ba_first_purchase_date := ts_min (map invoice_date g);
       ba_last_purchase_date := ts_max (map invoice_date g) |}) in
  let with_basket := merge_left agg (basket_metrics observation_df) in
  let with_frequency :=
    merge_inner with_basket
      (map (fun kr => (fst kr, rfm_frequency (snd kr))) rfm_table) in
  map (fun row =>
    let a := fst (fst (snd row)) in
    let bm := snd (fst (snd row)) in
    let frequency := snd (snd row) in
    let d := span_days (ba_last_purchase_date a) (ba_first_purchase_date a) in
    (fst row,
     {| b_unique_products := ba_unique_products a;
        b_first_purchase_date := ba_first_purchase_date a;
        b_last_purchase_date := ba_last_purchase_date a;
        b_avg_items_per_basket := option_map bm_avg_items_per_basket bm;
        b_avg_units_per_line := option_map bm_avg_units_per_line bm;
        b_days_as_customer := d;
        b_purchase_velocity := option_map (velocity frequency) d;
        b_avg_days_between_purchases := option_map (avg_days frequency) d |}))
    with_frequency.

(** ** Step 6: return metrics *)

Record ReturnsRow : Type := mkReturnsRow {
  r_n_return_invoices : Z;
  r_return_amount : R;
  r_return_rate : R;
  r_has_returns : bool
}.

Definition return_invoices (observation_df : DataFrame) : list (Z * Z) :=
  groupby (filter is_return observation_df) (fun g => nunique (map invoice g)).

Definition return_amount (observation_df : DataFrame) : list (Z * R) :=
  groupby (filter is_return observation_df)
          (fun g => f_abs (fsum (map total_amount g))).

Definition returns (observation_df : DataFrame)
    (rfm_table : list (Z * RfmRow)) : list (Z * ReturnsRow) :=
  let ri := return_invoices observation_df in
  let frame :=
    combine (map fst ri)
      (combine (map snd ri)
               (reindex (return_amount observation_df) (map fst ri) f_zero)) in
  let joined :=
    merge_right frame
      (map (fun kr => (fst kr, rfm_frequency (snd kr))) rfm_table) in
  map (fun row =>
    let frequency := snd (snd row) in
    let n := fillna 0 (option_map fst (fst (snd row))) in
    let amount := fillna f_zero (option_map snd (fst (snd row))) in
    (fst row,
     {| r_n_return_invoices := n;
        r_return_amount := amount;
        r_return_rate := f_div (f_of_Z n) (f_of_Z frequency);
        r_has_returns := 0 <? n |}))
    joined.

(** ** Step 7: churn labels *)

Definition purchase_customers (outcome_df : DataFrame) : list Z :=
  unique (map customer_id (filter (fun t => quantity t >? 0) outcome_df)).

Definition churn_labels (eligible : list Z) (outcome_df : DataFrame)
  : list (Z * Z) :=
  tabulate
    (fun c => if negb (isin c (purchase_customers outcome_df)) then 1 else 0)
    eligible.

(** ** Step 8: the merged feature table *)

Record Features : Type := mkFeatures {
  recency : option Z;
  frequency : Z;
  monetary_net : R;
  monetary_gross : R;
  unique_products : option Z;
  first_purchase_date : Timestamp;
  last_purchase_date : Timestamp;
  avg_items_per_basket : R;
  avg_units_per_line : R;
  days_as_customer : option Z;
  purchase_velocity : option R;
  avg_days_between_purchases : option R;
  n_return_invoices : option Z;
  return_amount_ : option R;
  return_rate : option R;
  has_returns : option bool;
  churned : option Z
}.

(** One row per customer identifier [fst]; a missing cell is [None]. *)
Definition FeatureTable : Type := list (Z * Features).

Definition merge_features (rfm_table : list (Z * RfmRow))
    (behavioral_table : list (Z * BehavioralRow))
    (returns_table : list (Z * ReturnsRow))
    (labels : list (Z * Z)) : FeatureTable :=
  let joined :=
    merge_left (merge_left (merge_left rfm_table behavioral_table)
                           returns_table) labels in
  map (fun row =>
    let r := fst (fst (fst (snd row))) in
    let b := snd (fst (fst (snd row))) in
    let ret := snd (fst (snd row)) in
    let label := snd (snd row) in
    (fst row,
     {| recency := rfm_recency r;
        frequency := rfm_frequency r;
        monetary_net := rfm_monetary_net r;
        monetary_gross := rfm_monetary_gross r;
        unique_products := option_map b_unique_products b;
        first_purchase_date := col b_first_purchase_date b;
        last_purchase_date := col b_last_purchase_date b;
        avg_items_per_basket := fillna f_zero (col b_avg_items_per_basket b);
        avg_units_per_line := fillna f_zero (col b_avg_units_per_line b);
        days_as_customer := col b_days_as_customer b;
        purchase_velocity := col b_purchase_velocity b;
        avg_days_between_purchases := col b_avg_days_between_purchases b;
        n_return_invoices := option_map r_n_return_invoices ret;
        return_amount_ := option_map r_return_amount ret;
        return_rate := option_map r_return_rate ret;
        has_returns := option_map r_has_returns ret;
        churned := label |}))
    joined.

(** Steps 2 to 8 on the two windows. *)
Definition features_of (cfg : Config) (observation_df outcome_df : DataFrame)
  : FeatureTable :=
  let eligible := eligible_customers cfg observation_df in
  let observation_df := restrict observation_df eligible in
  let rfm_table := rfm cfg observation_df in
  merge_features rfm_table
    (behavioral observation_df rfm_table)
    (returns observation_df rfm_table)
    (churn_labels eligible outcome_df).

(** The row of customer [c] in closed form, every column computed from
    the customer's own lines of the (restricted) observation window;
    [features_of_rows] below proves that the joins of the script produce
    exactly these rows. *)
Definition feature_row (cfg : Config) (observation_df outcome_df : DataFrame)
    (eligible : list Z) (c : Z) : Features :=
  let g := rows_of c observation_df in
  let purchases := filter (fun t => quantity t >? 0) g in
  let ret := filter is_return g in
  let first := ts_min (map invoice_date g) in
  let last := ts_max (map invoice_date g) in
  let n := match ret with [] => 0 | _ => nunique (map invoice ret) end in
  {| recency := option_map (fun m => days (OBS_END cfg - m)) last;
     frequency := nunique (map invoice g);
     monetary_net := fsum (map total_amount g);
     monetary_gross := fsum (filter f_gt0 (map total_amount g));
     unique_products := Some (nunique (map stock_code g));
     first_purchase_date := first;
     last_purchase_date := last;
     avg_items_per_basket :=
       match purchases with
       | [] => f_zero
       | _ => zmean (basket_sizes purchases)
       end;
     avg_units_per_line :=
       match purchases with
       | [] => f_zero
       | _ => zmean (map quantity purchases)
       end;
     days_as_customer := span_days last first;
     purchase_velocity :=
       option_map (velocity (nunique (map invoice g))) (span_days last first);
     avg_days_between_purchases :=
       option_map (avg_days (nunique (map invoice g))) (span_days last first);
     n_return_invoices := Some n;
     return_amount_ :=
       Some match ret with
            | [] => f_zero
            | _ => f_abs (fsum (map total_amount ret))
            end;
     return_rate := Some (f_div (f_of_Z n) (f_of_Z (nunique (map invoice g))));
     has_returns := Some (0 <? n);
     churned :=
       if isin c eligible
       then Some (if negb (isin c (purchase_customers outcome_df)) then 1 else 0)
       else None |}.

(** ** Step 9: data quality checks *)

Definition negative_recency (features : FeatureTable) : bool :=
  existsb (fun row => match recency (snd row) with
                      | Some x => x <? 0
                      | None => false
                      end) features.

Definition zero_frequency (features : FeatureTable) : bool :=
  existsb (fun row => frequency (snd row) =? 0) features.

Definition missing_churn_labels (features : FeatureTable) : bool :=
  existsb (fun row => match churned (snd row) with
                      | Some _ => false
                      | None => true
                      end) features.

Definition duplicate_customer_ids (features : FeatureTable) : bool :=
  duplicated_any (map fst features).

Definition negative_monetary_gross (features : FeatureTable) : bool :=
  existsb (fun row => f_lt0 (monetary_gross (snd row))) features.

Definition negative_monetary_net (features : FeatureTable) : bool :=
  existsb (fun row => f_lt0 (monetary_net (snd row))) features.

Definition quality_checks (features : FeatureTable) : list LogLine :=
  (if negative_recency features
   then [log_error "Negative recency values detected - check observation window logic"]
   else [])
  ++ (if zero_frequency features
      then [log_warn "customers with zero frequency"] else [])
  ++ (if missing_churn_labels features
      then [log_error "missing churn labels"] else [])
  ++ (if duplicate_customer_ids features
      then [log_error "Duplicate customer_ids detected"] else [])
  ++ (if negative_monetary_gross features
      then [log_error "Negative monetary_gross detected - should be impossible"]
      else [])
  ++ (if negative_monetary_net features
      then [log_info "customers with negative net monetary (serial returners)"]
      else []).

(** The fatal-class checks of the specification: those the script reports
    through [log_error]. *)
Definition fatal_check_fails (features : FeatureTable) : bool :=
  negative_recency features || missing_churn_labels features
  || duplicate_customer_ids features || negative_monetary_gross features.

(** ** Step 10: report *)

(** [generate_feature_report]: the churn section divides a Python integer
    by [len(df)]. *)
Definition generate_feature_report (df : FeatureTable) : Exception + string :=
  if (List.length df =? 0)%nat then inl ZeroDivisionError
  else inr "FEATURE ENGINEERING REPORT"%string.

(** ** The script *)

Inductive Outcome : Type :=
  | Raised (printed : list LogLine) (e : Exception)
  | Finished (printed : list LogLine).

(** Steps 9 to 11 on a merged feature table.  [file] is the content of
    [customers_features.csv] before the step ([None]: no such file);
    [to_csv] replaces it. *)
Definition validate_report_export (features : FeatureTable)
    (printed : list LogLine) (file : option FeatureTable)
  : Outcome * option FeatureTable :=
  let printed :=
    printed ++ [log_info "Running data quality checks..."]
            ++ quality_checks features in
  match generate_feature_report features with
  | inl e => (Raised printed e, file)
  | inr report =>
      (Finished (printed ++ [(STDOUT, report);
                             log_info "Features exported";
                             log_info "File size";
                             log_info "Feature engineering complete - ready for modeling"]),
       Some features)
  end.

Definition feature_engineering (cfg : Config) (df : DataFrame)
    (file : option FeatureTable) : Outcome * option FeatureTable :=
  let printed :=
    [log_info "Configuration loaded successfully";
     log_info "Loading cleaned transaction data...";
     log_info "Data loaded"]
    ++ validate_date_column df ++ validate_no_missing_values df in
  let windows := split_by_time_window df (OBS_END cfg) (OUTCOME_START cfg) in
  let observation_df := fst windows in
  let outcome_df := snd windows in
  let printed := printed ++ split_log in
  match check_data_leakage observation_df outcome_df with
  | inl e => (Raised printed e, file)
  | inr ok =>
      let printed :=
        printed ++ ok ++ [log_info "Observation"; log_info "Outcome";
                          log_info "Applying cohort eligibility criteria..."] in
      (* filtered_pct = (filtered_out / n_total) * 100 *)
      if (List.length (customer_stats observation_df) =? 0)%nat
      then (Raised printed ZeroDivisionError, file)
      else
        let printed :=
          printed ++ [log_info "Cohort Eligibility Results:";
                      log_info "  Total customers in observation";
                      log_info "  Eligible (meeting both criteria)";
                      log_info "  Filtered out";
                      log_info "    - Failed tenure";
                      log_info "    - Failed frequency";
                      log_info "    - Failed both";
                      log_info "Calculating RFM metrics...";
                      log_info "Calculating behavioral features...";
                      log_info "Calculating return metrics...";
                      log_info "Defining churn labels...";
                      log_info "Churn rate";
                      log_info "Merging feature sets..."] in
        validate_report_export
          (features_of cfg observation_df outcome_df) printed file
  end.

(** ** Step 3: the counts of the cohort report *)

(** [a > b] on timestamps; [False] when either is [NaT]. *)
Definition ts_gtb (a b : Timestamp) : bool :=
  match a, b with Some x, Some y => y <? x | _, _ => false end.

(** [(mask).sum()]: the number of rows on which a boolean column holds. *)
Definition count_true {A : Type} (mask : A -> bool) (l : list A) : Z :=
  Z.of_nat (List.length (filter mask l)).

(** [customer_stats['first_purchase'] > min_acquisition_date] *)
Definition tenure_fails (cfg : Config) (cs : Z * CustomerStats) : bool :=
  ts_gtb (first_purchase (snd cs)) (Some (min_acquisition_date cfg)).

(** [customer_stats['n_transactions'] < MIN_FREQUENCY] *)
Definition frequency_fails (cfg : Config) (cs : Z * CustomerStats) : bool :=
  n_transactions (snd cs) <? MIN_FREQUENCY cfg.

Definition n_total (observation_df : DataFrame) : Z :=
  Z.of_nat (List.length (customer_stats observation_df)).

Definition n_tenure_fail (cfg : Config) (observation_df : DataFrame) : Z :=
  count_true (tenure_fails cfg) (customer_stats observation_df).

Definition n_frequency_fail (cfg : Config) (observation_df : DataFrame) : Z :=
  count_true (frequency_fails cfg) (customer_stats observation_df).

Definition n_both_fail (cfg : Config) (observation_df : DataFrame) : Z :=
  count_true (fun cs => tenure_fails cfg cs && frequency_fails cfg cs)
             (customer_stats observation_df).

Definition n_eligible (cfg : Config) (observation_df : DataFrame) : Z :=
  Z.of_nat (List.length (eligible_customers cfg observation_df)).

Definition filtered_out (cfg : Config) (observation_df : DataFrame) : Z :=
  n_total observation_df - n_eligible cfg observation_df.

(** ** Step 10: the churn distribution of the report *)

(** [df['churned'].value_counts().get(v, 0)]: the number of rows labelled
    [v]; rows with a missing label are not counted. *)
Definition value_count (v : Z) (df : FeatureTable) : Z :=
  count_true (fun row => match churned (snd row) with
                         | Some x => x =? v
                         | None => false
                         end) df.

(** ** Helpers for statements *)

(** The row has a timestamp. *)
Definition dated (t : Transaction) : bool :=
  match invoice_date t with Some _ => true | None => false end.

(** A feature row with the label cell blanked: the feature columns alone. *)
Definition drop_label (f : Features) : Features :=
  {| recency := recency f;
     frequency := frequency f;
     monetary_net := monetary_net f;
     monetary_gross := monetary_gross f;
     unique_products := unique_products f;
     first_purchase_date := first_purchase_date f;
     last_purchase_date := last_purchase_date f;
     avg_items_per_basket := avg_items_per_basket f;
     avg_units_per_line := avg_units_per_line f;
     days_as_customer := days_as_customer f;
     purchase_velocity := purchase_velocity f;
     avg_days_between_purchases := avg_days_between_purchases f;
     n_return_invoices := n_return_invoices f;
     return_amount_ := return_amount_ f;
     return_rate := return_rate f;
     has_returns := has_returns f;
     churned := None |}.

End Pipeline.

(** ** Example data *)

Module Examples.

(** Days are counted from the epoch: 2010-12-01 is day 14944, 2011-05-20
    day 15114, 2011-06-01 day 15126. *)
Definition cfg : Config :=
  {| OBS_START := 14579 * DAY;
     OBS_END := 15126 * DAY;
     OUTCOME_START := 15126 * DAY;
     OUTCOME_END := 15318 * DAY;
     MIN_TENURE_DAYS := 90;
     MIN_FREQUENCY := 2 |}.

(** A line invoiced at midnight of [day]; [is_return] follows the sign of
    the quantity. *)
Definition line {R : Type} (inv : string) (c q : Z) (p : R) (day : Z)
    (amount : R) : @Transaction R :=
  {| invoice := inv; stock_code := "85123A"; customer_id := c;
     quantity := q; price := p; country := "United Kingdom";
     invoice_date := Some (day * DAY); total_amount := amount;
     is_return := q <? 0 |}.

(** Customer 7: two invoices, one of them a return, and a purchase in the
    outcome window.  Customer 8: two invoices, no return, only a return in
    the outcome window.  Customer 9: a single recent invoice.  Customer 10:
    a single old invoice. *)
Definition retail : @DataFrame Q :=
  [ line "536365" 7 2 5%Q 14944 10%Q;
    line "536365" 7 3 5%Q 14944 15%Q;
    line "C540001" 7 (-1) 5%Q 15114 (-5)%Q;
    line "536400" 8 4 (5 # 2)%Q 14984 10%Q;
    line "537000" 8 1 (5 # 2)%Q 15065 (5 # 2)%Q;
    line "539999" 9 1 1%Q 15114 1%Q;
    line "538000" 10 6 2%Q 14944 12%Q;
    line "541000" 7 2 5%Q 15170 10%Q;
    line "C541001" 8 (-1) (5 # 2)%Q 15170 (- (5 # 2))%Q ].

(** The lines of [retail] dated before the end of the observation window:
    the outcome window of this frame is empty. *)
Definition retail_early : @DataFrame Q := firstn 7 retail.

Definition retail_windows : @DataFrame Q * @DataFrame Q :=
  split_by_time_window retail (OBS_END cfg) (OUTCOME_START cfg).

Definition early_windows : @DataFrame Q * @DataFrame Q :=
  split_by_time_window retail_early (OBS_END cfg) (OUTCOME_START cfg).

(** One purchase of 0.85 and, 94 days later, one return of 0.29, as
    binary64 values. *)
Definition retail_binary64 : @DataFrame float :=
  [ line "536365" 7 1 (f_div (f_of_Z 85) (f_of_Z 100)) 14944
         (f_div (f_of_Z 85) (f_of_Z 100));
    line "C540001" 7 (-1) (f_div (f_of_Z 29) (f_of_Z 100)) 15038
         (PrimFloat.opp (f_div (f_of_Z 29) (f_of_Z 100))) ].

(** A purchase of 10 and a line of quantity -1 and amount -5 that carries
    no return flag. *)
Definition retail_unflagged : @DataFrame Q :=
  [ {| invoice := "536365"; stock_code := "85123A"; customer_id := 7;
       quantity := 2; price := 5%Q; country := "United Kingdom";
       invoice_date := Some (14944 * DAY); total_amount := 10%Q;
       is_return := false |};
    {| invoice := "540001"; stock_code := "85123A"; customer_id := 7;
       quantity := -1; price := 5%Q; country := "United Kingdom";
       invoice_date := Some (15038 * DAY); total_amount := (-5)%Q;
       is_return := false |} ].

(** [retail] with its rows in reverse order and the first line repeated. *)
Definition retail_shuffled : @DataFrame Q :=
  rev retail ++ firstn 1 retail.

(** Boundaries that overlap: the outcome window starts on day 15100, before
    the observation window ends. *)
Definition cfg_overlap : Config :=
  {| OBS_START := 14579 * DAY;
     OBS_END := 15126 * DAY;
     OUTCOME_START := 15100 * DAY;
     OUTCOME_END := 15318 * DAY;
     MIN_TENURE_DAYS := 90;
     MIN_FREQUENCY := 2 |}.


(** [cfg] with looser thresholds: 30 days of tenure, 1 invoice. *)
Definition cfg_loose : Config :=
  {| OBS_START := 14579 * DAY;
     OBS_END := 15126 * DAY;
     OUTCOME_START := 15126 * DAY;
     OUTCOME_END := 15318 * DAY;
     MIN_TENURE_DAYS := 30;
     MIN_FREQUENCY := 1 |}.


End Examples.

(** * Facts about the pandas primitives *)

Section PrimitiveFacts.

Context {R : Type} `{Float64 R}.

Implicit Types (df g : @DataFrame R) (c k : Z).

(** ** Group keys *)

Lemma insert_key_In k x l : In x (insert_key k l) <-> x = k \/ In x l.
Proof.
  induction l as [|y l IH]; simpl.
  - intuition.
  - destruct (k <? y) eqn:Hlt; [simpl; intuition|].
    destruct (k =? y) eqn:Heq.
    + apply Z.eqb_eq in Heq. subst y. simpl. intuition.
    + simpl. rewrite IH. intuition.
Qed.

Lemma group_keys_In x l : In x (group_keys l) <-> In x l.
Proof.
  induction l as [|y l IH]; simpl; [tauto|].
  rewrite insert_key_In, IH. intuition.
Qed.

Lemma insert_key_sorted k l :
  StronglySorted Z.lt l -> StronglySorted Z.lt (insert_key k l).
Proof.
  induction 1 as [|y l Hs IH Hall]; simpl.
  - repeat constructor.
  - destruct (k <? y) eqn:Hlt.
    + apply Z.ltb_lt in Hlt. constructor; [constructor; assumption|].
      constructor; [assumption|].
      rewrite Forall_forall in *. intros z Hz. specialize (Hall z Hz). lia.
    + destruct (k =? y) eqn:Heq; [constructor; assumption|].
      apply Z.ltb_ge in Hlt. apply Z.eqb_neq in Heq.
      constructor; [assumption|].
      rewrite Forall_forall in *. intros z Hz.
      apply insert_key_In in Hz. destruct Hz as [->|Hz]; [lia|auto].
Qed.

Lemma group_keys_sorted l : StronglySorted Z.lt (group_keys l).
Proof.
  induction l; simpl; [constructor | apply insert_key_sorted; assumption].
Qed.

Lemma sorted_NoDup l : StronglySorted Z.lt l -> NoDup l.
Proof.
  induction 1 as [|y l Hs IH Hall]; constructor; [|assumption].
  intro Hin. rewrite Forall_forall in Hall. specialize (Hall y Hin). lia.
Qed.

Lemma group_keys_NoDup l : NoDup (group_keys l).
Proof. apply sorted_NoDup, group_keys_sorted. Qed.

Lemma isin_In c l : isin c l = true <-> In c l.
Proof.
  unfold isin. rewrite existsb_exists. split.
  - intros (x & Hx & Heq). apply Z.eqb_eq in Heq. now subst.
  - intros Hin. exists c. split; [assumption | apply Z.eqb_refl].
Qed.

Lemma isin_false c l : isin c l = false <-> ~ In c l.
Proof.
  rewrite <- isin_In. destruct (isin c l); split; congruence.
Qed.

Lemma unique_In x l : In x (unique l) <-> In x l.
Proof.
  induction l as [|y l IH]; simpl; [tauto|].
  rewrite filter_In, IH. destruct (Z.eq_dec x y) as [->|Hne].
  - intuition.
  - assert (negb (x =? y) = true) by (apply negb_true_iff, Z.eqb_neq; assumption).
    intuition.
Qed.

Lemma duplicated_any_false l : NoDup l -> duplicated_any l = false.
Proof.
  induction 1 as [|x l Hx Hnd IH]; simpl; [reflexivity|].
  rewrite IH, orb_false_r. now apply isin_false.
Qed.

(** ** Rows of a customer *)

Lemma rows_of_In c df t :
  In t (rows_of c df) <-> In t df /\ customer_id t = c.
Proof. unfold rows_of. rewrite filter_In, Z.eqb_eq. tauto. Qed.

Lemma rows_of_filter c df (p : Transaction -> bool) :
  rows_of c (filter p df) = filter p (rows_of c df).
Proof.
  unfold rows_of. induction df as [|t df IH]; simpl; [reflexivity|].
  destruct (p t) eqn:Hp, (customer_id t =? c) eqn:Hc; simpl;
    rewrite ?Hp, ?Hc, IH; reflexivity.
Qed.

Lemma rows_of_restrict c df E :
  In c E -> rows_of c (restrict df E) = rows_of c df.
Proof.
  intros Hin. unfold restrict. rewrite rows_of_filter.
  unfold rows_of. induction df as [|t df IH]; simpl; [reflexivity|].
  destruct (customer_id t =? c) eqn:Hc; simpl; [|assumption].
  apply Z.eqb_eq in Hc. rewrite Hc.
  apply isin_In in Hin. rewrite Hin, IH. reflexivity.
Qed.

Lemma key_has_rows c df :
  In c (group_keys (map customer_id df)) <-> rows_of c df <> [].
Proof.
  rewrite group_keys_In, in_map_iff. split.
  - intros (t & Hc & Hin) Hnil.
    assert (Ht : In t (rows_of c df)) by (apply rows_of_In; auto).
    rewrite Hnil in Ht. destruct Ht.
  - intros Hne. destruct (rows_of c df) as [|t g] eqn:Hg; [congruence|].
    assert (Ht : In t (rows_of c df)) by (rewrite Hg; left; reflexivity).
    apply rows_of_In in Ht. exists t. tauto.
Qed.

(** ** Keyed tables and joins *)

Lemma tabulate_In {A} (f : Z -> A) K c a :
  In (c, a) (tabulate f K) <-> In c K /\ a = f c.
Proof.
  unfold tabulate. rewrite in_map_iff. split.
  - intros (x & Heq & Hin). inversion Heq; subst. auto.
  - intros (Hin & ->). exists c. auto.
Qed.

Lemma tabulate_keys {A} (f : Z -> A) K : map fst (tabulate f K) = K.
Proof.
  unfold tabulate. rewrite map_map. simpl. apply map_id.
Qed.

Lemma tabulate_ext_in {A} (f f' : Z -> A) K :
  (forall c, In c K -> f c = f' c) -> tabulate f K = tabulate f' K.
Proof.
  intros Hext. unfold tabulate. apply map_ext_in.
  intros c Hc. now rewrite Hext.
Qed.

Lemma map_tabulate {A B} (F : A -> B) (f : Z -> A) K :
  map (fun row => (fst row, F (snd row))) (tabulate f K)
  = tabulate (fun c => F (f c)) K.
Proof. unfold tabulate. rewrite map_map. reflexivity. Qed.

Lemma matches_absent {B} k (g : Z -> B) K :
  ~ In k K -> matches k (tabulate g K) = [].
Proof.
  unfold matches, tabulate. induction K as [|x K IH]; simpl; [reflexivity|].
  intros Hnin. destruct (x =? k) eqn:Hx.
  - apply Z.eqb_eq in Hx. exfalso. auto.
  - apply IH. auto.
Qed.

Lemma matches_tabulate {B} k (g : Z -> B) K :
  NoDup K ->
  matches k (tabulate g K) = if isin k K then [g k] else [].
Proof.
  induction 1 as [|x K Hx Hnd IH]; [reflexivity|].
  unfold matches, tabulate in *. simpl.
  rewrite (Z.eqb_sym k x). destruct (x =? k) eqn:Hxk; simpl.
  - apply Z.eqb_eq in Hxk. subst x.
    f_equal. apply (matches_absent k g K Hx).
  - exact IH.
Qed.

Lemma tabulate_cons {A} (f : Z -> A) x K :
  tabulate f (x :: K) = (x, f x) :: tabulate f K.
Proof. reflexivity. Qed.

Lemma merge_left_tabulate {A B} (f : Z -> A) (g : Z -> B) K K' :
  NoDup K' ->
  merge_left (tabulate f K) (tabulate g K')
  = tabulate (fun c => (f c, if isin c K' then Some (g c) else None)) K.
Proof.
  intros Hnd. unfold merge_left.
  induction K as [|x K IH]; [reflexivity|].
  rewrite !tabulate_cons. cbn [flat_map fst snd].
  rewrite IH, (matches_tabulate x g K' Hnd).
  destruct (isin x K'); reflexivity.
Qed.

Lemma merge_right_tabulate {A B} (f : Z -> A) (g : Z -> B) K K' :
  NoDup K ->
  merge_right (tabulate f K) (tabulate g K')
  = tabulate (fun c => (if isin c K then Some (f c) else None, g c)) K'.
Proof.
  intros Hnd. unfold merge_right.
  induction K' as [|x K' IH]; [reflexivity|].
  rewrite !tabulate_cons. cbn [flat_map fst snd].
  rewrite IH, (matches_tabulate x f K Hnd).
  destruct (isin x K); reflexivity.
Qed.

Lemma merge_inner_tabulate {A B} (f : Z -> A) (g : Z -> B) K K' :
  NoDup K' -> incl K K' ->
  merge_inner (tabulate f K) (tabulate g K')
  = tabulate (fun c => (f c, g c)) K.
Proof.
  intros Hnd. unfold merge_inner.
  induction K as [|x K IH]; intros Hincl; [reflexivity|].
  rewrite !tabulate_cons. cbn [flat_map fst snd].
  rewrite (matches_tabulate x g K' Hnd).
  assert (Hx : isin x K' = true) by (apply isin_In, Hincl; left; reflexivity).
  rewrite Hx, IH; [reflexivity|].
  intros y Hy. apply Hincl. right. assumption.
Qed.

Lemma frame_of_series {A B} (f : Z -> A) (g : Z -> B) K K' (fill : B) :
  NoDup K' ->
  combine (map fst (tabulate f K))
          (combine (map snd (tabulate f K))
                   (reindex (tabulate g K') (map fst (tabulate f K)) fill))
  = tabulate (fun c => (f c, if isin c K' then g c else fill)) K.
Proof.
  intros Hnd. rewrite tabulate_keys. unfold reindex.
  induction K as [|x K IH]; [reflexivity|].
  rewrite !tabulate_cons. cbn [map combine fst snd].
  rewrite IH, (matches_tabulate x g K' Hnd).
  destruct (isin x K'); reflexivity.
Qed.

Lemma map_tabulate_gen {A B} (h : Z * A -> Z * B) (f : Z -> A) K :
  (forall row, fst (h row) = fst row) ->
  map h (tabulate f K) = tabulate (fun c => snd (h (c, f c))) K.
Proof.
  intros Hfst. unfold tabulate. rewrite map_map. apply map_ext.
  intros c. specialize (Hfst (c, f c)). simpl in Hfst.
  destruct (h (c, f c)) as [k b]. simpl in *. now subst.
Qed.

Lemma isin_group_keys c df :
  isin c (group_keys (map customer_id df))
  = match rows_of c df with [] => false | _ => true end.
Proof.
  destruct (rows_of c df) as [|t g] eqn:Hg.
  - apply isin_false. rewrite key_has_rows. auto.
  - apply isin_In. rewrite key_has_rows. rewrite Hg. discriminate.
Qed.

Lemma eligible_in_stats cfg df c :
  In c (eligible_customers cfg df) -> In c (group_keys (map customer_id df)).
Proof.
  unfold eligible_customers, customer_stats, groupby.
  rewrite in_map_iff. intros ([k a] & Hk & Hin). simpl in Hk. subst k.
  apply filter_In in Hin. destruct Hin as [Hin _].
  apply tabulate_In in Hin. tauto.
Qed.

Lemma NoDup_map_fst_filter {A} (p : Z * A -> bool) (l : list (Z * A)) :
  NoDup (map fst l) -> NoDup (map fst (filter p l)).
Proof.
  induction l as [|x l IH]; simpl; [constructor|].
  intros Hnd. inversion Hnd as [|? ? Hx Hl]; subst.
  destruct (p x); simpl; [|auto].
  constructor; [|auto].
  intro Hin. apply Hx. apply in_map_iff in Hin.
  destruct Hin as (y & Hy & Hin). apply filter_In in Hin.
  apply in_map_iff. exists y. tauto.
Qed.

Lemma eligible_NoDup cfg df : NoDup (eligible_customers cfg df).
Proof.
  unfold eligible_customers, customer_stats, groupby.
  apply NoDup_map_fst_filter. rewrite tabulate_keys. apply group_keys_NoDup.
Qed.

(** The customers of the restricted observation window are the eligible
    ones. *)
Lemma restricted_keys cfg df c :
  In c (group_keys (map customer_id (restrict df (eligible_customers cfg df))))
  <-> In c (eligible_customers cfg df).
Proof.
  split.
  - rewrite group_keys_In, in_map_iff. intros (t & Hc & Hin).
    unfold restrict in Hin. apply filter_In in Hin. destruct Hin as [_ Hin].
    apply isin_In in Hin. now subst.
  - intros Hel. apply key_has_rows. rewrite rows_of_restrict by assumption.
    apply key_has_rows. eapply eligible_in_stats; eassumption.
Qed.

(** The script's joins build the closed-form rows, one per customer of the
    restricted window, in ascending order of identifier. *)
Lemma features_of_rows cfg observation_df outcome_df :
  let eligible := eligible_customers cfg observation_df in
  let restricted := restrict observation_df eligible in
  features_of cfg observation_df outcome_df
  = tabulate (feature_row cfg restricted outcome_df eligible)
             (group_keys (map customer_id restricted)).
Proof.
  intros eligible restricted.
  unfold features_of, merge_features, behavioral, returns, rfm,
    basket_metrics, return_invoices, return_amount, churn_labels, groupby.
  fold eligible. fold restricted.
  set (K := group_keys (map customer_id restricted)).
  assert (HK : NoDup K) by apply group_keys_NoDup.
  rewrite !map_tabulate.
  rewrite (merge_left_tabulate _ _ K _ (group_keys_NoDup _)).
  rewrite (merge_inner_tabulate _ _ K K HK (incl_refl K)).
  rewrite (frame_of_series _ _ _ _ f_zero (group_keys_NoDup _)).
  rewrite (merge_right_tabulate _ _ _ K (group_keys_NoDup _)).
  rewrite !map_tabulate_gen by reflexivity.
  rewrite !(merge_left_tabulate _ _ K K HK).
  rewrite (merge_left_tabulate _ _ K eligible (eligible_NoDup _ _)).
  rewrite map_tabulate_gen by reflexivity.
  apply tabulate_ext_in. intros c Hc.
  assert (HcK : isin c K = true) by (apply isin_In; assumption).
  cbn -[isin rows_of nunique fsum zmean basket_sizes velocity avg_days
        span_days days ts_min ts_max purchase_customers].
  rewrite HcK.
  cbn -[isin rows_of nunique fsum zmean basket_sizes velocity avg_days
        span_days days ts_min ts_max purchase_customers].
  rewrite !isin_group_keys, !rows_of_filter.
  unfold feature_row.
  destruct (filter (fun t => quantity t >? 0) (rows_of c restricted));
    destruct (filter is_return (rows_of c restricted)); reflexivity.
Qed.

(** The returns table in closed form. *)
Lemma returns_rows cfg df c r :
  In (c, r) (returns df (rfm cfg df))
  <-> In c (group_keys (map customer_id df))
      /\ r = let ret := filter is_return (rows_of c df) in
             let n := match ret with
                      | [] => 0
                      | _ => nunique (map invoice ret)
                      end in
             {| r_n_return_invoices := n;
                r_return_amount :=
                  match ret with
                  | [] => f_zero
                  | _ => f_abs (fsum (map total_amount ret))
                  end;
                r_return_rate :=
                  f_div (f_of_Z n)
                        (f_of_Z (nunique (map invoice (rows_of c df))));
                r_has_returns := 0 <? n |}.
Proof.
  unfold returns, rfm, return_invoices, return_amount, groupby.
  rewrite map_tabulate.
  rewrite (frame_of_series _ _ _ _ f_zero (group_keys_NoDup _)).
  rewrite (merge_right_tabulate _ _ _ _ (group_keys_NoDup _)).
  rewrite map_tabulate_gen by reflexivity.
  rewrite tabulate_In.
  cbn -[isin rows_of nunique fsum].
  rewrite !isin_group_keys, !rows_of_filter.
  destruct (filter is_return (rows_of c df)); reflexivity.
Qed.

End PrimitiveFacts.

(** * Timestamps and the time-window splitter *)

Lemma ts_max_spec (l : list Timestamp) :
  match ts_max l with
  | Some m => is_max_ts m l
  | None => forall x, ~ In (Some x) l
  end.
Proof.
  unfold is_max_ts. induction l as [|[y|] l IH]; simpl.
  - intros x [].
  - destruct (ts_max l) as [m|].
    + destruct IH as [Hin Hmax]. split.
      * destruct (Z.max_spec y m) as [[_ ->]|[_ ->]]; auto.
      * intros x [Hx|Hx]; [inversion Hx; lia|].
        specialize (Hmax x Hx). lia.
    + split; [auto|]. intros x [Hx|Hx]; [inversion Hx; lia|].
      exfalso. exact (IH x Hx).
  - destruct (ts_max l) as [m|].
    + destruct IH as [Hin Hmax]. split; [auto|].
      intros x [Hx|Hx]; [discriminate | auto].
    + intros x [Hx|Hx]; [discriminate | exact (IH x Hx)].
Qed.

Lemma ts_min_spec (l : list Timestamp) :
  match ts_min l with
  | Some m => is_min_ts m l
  | None => forall x, ~ In (Some x) l
  end.
Proof.
  unfold is_min_ts. induction l as [|[y|] l IH]; simpl.
  - intros x [].
  - destruct (ts_min l) as [m|].
    + destruct IH as [Hin Hmin]. split.
      * destruct (Z.min_spec y m) as [[_ ->]|[_ ->]]; auto.
      * intros x [Hx|Hx]; [inversion Hx; lia|].
        specialize (Hmin x Hx). lia.
    + split; [auto|]. intros x [Hx|Hx]; [inversion Hx; lia|].
      exfalso. exact (IH x Hx).
  - destruct (ts_min l) as [m|].
    + destruct IH as [Hin Hmin]. split; [auto|].
      intros x [Hx|Hx]; [discriminate | auto].
    + intros x [Hx|Hx]; [discriminate | exact (IH x Hx)].
Qed.

Lemma is_max_ts_unique m m' l : is_max_ts m l -> is_max_ts m' l -> m = m'.
Proof.
  intros [Hin Hmax] [Hin' Hmax']. specialize (Hmax _ Hin').
  specialize (Hmax' _ Hin). lia.
Qed.

Lemma is_min_ts_unique m m' l : is_min_ts m l -> is_min_ts m' l -> m = m'.
Proof.
  intros [Hin Hmin] [Hin' Hmin']. specialize (Hmin _ Hin').
  specialize (Hmin' _ Hin). lia.
Qed.

Lemma ts_max_iff m l : ts_max l = Some m <-> is_max_ts m l.
Proof.
  pose proof (ts_max_spec l) as Hs. split.
  - intros Heq. now rewrite Heq in Hs.
  - intros Hm. destruct (ts_max l) as [m'|].
    + f_equal. eapply is_max_ts_unique; eassumption.
    + destruct Hm as [Hin _]. exfalso. exact (Hs m Hin).
Qed.

Lemma ts_min_iff m l : ts_min l = Some m <-> is_min_ts m l.
Proof.
  pose proof (ts_min_spec l) as Hs. split.
  - intros Heq. now rewrite Heq in Hs.
  - intros Hm. destruct (ts_min l) as [m'|].
    + f_equal. eapply is_min_ts_unique; eassumption.
    + destruct Hm as [Hin _]. exfalso. exact (Hs m Hin).
Qed.

Section SplitterFacts.

Context {R : Type} `{Float64 R}.

Implicit Types (df observation_df outcome_df : @DataFrame R).

Lemma split_observation df observation_end outcome_start t :
  In t (fst (split_by_time_window df observation_end outcome_start))
  <-> In t df /\ exists x, invoice_date t = Some x /\ x < observation_end.
Proof.
  simpl. rewrite filter_In. unfold ts_ltb.
  destruct (invoice_date t) as [x|].
  - rewrite Z.ltb_lt. split.
    + intros [Hin Hlt]. split; [assumption|]. exists x. auto.
    + intros [Hin (y & Hy & Hlt)]. inversion Hy; subst. auto.
  - split; [intros [_ Hf]; discriminate|].
    intros [_ (y & Hy & _)]. discriminate.
Qed.

Lemma split_outcome df observation_end outcome_start t :
  In t (snd (split_by_time_window df observation_end outcome_start))
  <-> In t df /\ exists x, invoice_date t = Some x /\ outcome_start <= x.
Proof.
  simpl. rewrite filter_In. unfold ts_geb.
  destruct (invoice_date t) as [x|].
  - rewrite Z.leb_le. split.
    + intros [Hin Hle]. split; [assumption|]. exists x. auto.
    + intros [Hin (y & Hy & Hle)]. inversion Hy; subst. auto.
  - split; [intros [_ Hf]; discriminate|].
    intros [_ (y & Hy & _)]. discriminate.
Qed.

Lemma check_data_leakage_raises observation_df outcome_df :
  (exists e, check_data_leakage observation_df outcome_df = inl e)
  <-> exists a b,
        is_max_ts a (map invoice_date observation_df)
        /\ is_min_ts b (map invoice_date outcome_df)
        /\ b <= a.
Proof.
  unfold check_data_leakage.
  pose proof (ts_max_spec (map invoice_date observation_df)) as Hmax.
  pose proof (ts_min_spec (map invoice_date outcome_df)) as Hmin.
  destruct (ts_max (map invoice_date observation_df)) as [a|];
    destruct (ts_min (map invoice_date outcome_df)) as [b|]; simpl.
  - destruct (b <=? a) eqn:Hle.
    + apply Z.leb_le in Hle. split; [|eauto].
      intros _. exists a, b. auto.
    + apply Z.leb_gt in Hle. split; [intros [e He]; discriminate|].
      intros (a' & b' & Ha & Hb & Hle').
      rewrite (is_max_ts_unique _ _ _ Ha Hmax) in Hle'.
      rewrite (is_min_ts_unique _ _ _ Hb Hmin) in Hle'. lia.
  - split; [intros [e He]; discriminate|].
    intros (a' & b' & _ & [Hb _] & _). exfalso. exact (Hmin b' Hb).
  - split; [intros [e He]; discriminate|].
    intros (a' & b' & [Ha _] & _ & _). exfalso. exact (Hmax a' Ha).
  - split; [intros [e He]; discriminate|].
    intros (a' & b' & [Ha _] & _ & _). exfalso. exact (Hmax a' Ha).
Qed.

(** C2, as the code has it.  The splitter returns the transactions dated
    strictly before [observation_end] and those dated at or after
    [outcome_start] (a [NaT] row falls in neither window), and
    [check_data_leakage] raises, a [ValueError], if and only if both windows
    hold a dated transaction and the greatest observation timestamp is at
    or after the least outcome timestamp; in every other case, an empty
    window included, it returns after logging that no leakage was found. *)
Theorem split_and_leakage_guard df observation_end outcome_start :
  let windows := split_by_time_window df observation_end outcome_start in
  let observation_df := fst windows in
  let outcome_df := snd windows in
  (forall t, In t observation_df
             <-> In t df /\ exists x, invoice_date t = Some x
                                      /\ x < observation_end)
  /\ (forall t, In t outcome_df
                <-> In t df /\ exists x, invoice_date t = Some x
                                         /\ outcome_start <= x)
  /\ (check_data_leakage observation_df outcome_df
        = inl (ValueError "Data leakage detected")
      <-> exists a b,
            is_max_ts a (map invoice_date observation_df)
            /\ is_min_ts b (map invoice_date outcome_df)
            /\ b <= a)
  /\ (check_data_leakage observation_df outcome_df
        = inl (ValueError "Data leakage detected")
      \/ check_data_leakage observation_df outcome_df
        = inr [log_info "No temporal data leakage detected"]).
Proof.
  intros windows observation_df outcome_df.
  split; [intros t; apply split_observation|].
  split; [intros t; apply split_outcome|].
  split.
  - rewrite <- check_data_leakage_raises. split; [eauto|].
    intros [e He]. unfold check_data_leakage in *.
    destruct (ts_geb _ _); [reflexivity | discriminate].
  - unfold check_data_leakage. destruct (ts_geb _ _); auto.
Qed.

(** C10.  When either window holds no transaction, the reduction over it
    is [NaT], the comparison [obs_max >= outcome_min] is false, and
    [check_data_leakage] returns without raising. *)
Theorem empty_window_passes_leakage_guard observation_df outcome_df :
  observation_df = [] \/ outcome_df = [] ->
  ts_geb (ts_max (map invoice_date observation_df))
         (ts_min (map invoice_date outcome_df)) = false
  /\ check_data_leakage observation_df outcome_df
     = inr [log_info "No temporal data leakage detected"].
Proof.
  intros Hempty.
  assert (Hcmp : ts_geb (ts_max (map invoice_date observation_df))
                        (ts_min (map invoice_date outcome_df)) = false).
  { destruct Hempty as [-> | ->]; simpl; [reflexivity|].
    destruct (ts_max _); reflexivity. }
  split; [assumption|].
  unfold check_data_leakage. now rewrite Hcmp.
Qed.

End SplitterFacts.

(** * Distinct counts *)

Lemma nunique_nonneg (l : list string) : 0 <= nunique l.
Proof. unfold nunique. lia. Qed.

Lemma nunique_pos (l : list string) : l <> [] -> 1 <= nunique l.
Proof.
  intros Hne. unfold nunique. destruct l as [|x l]; [congruence|].
  assert (Hin : In x (nodup string_dec (x :: l)))
    by (apply nodup_In; left; reflexivity).
  destruct (nodup string_dec (x :: l)); [destruct Hin | simpl; lia].
Qed.

Lemma nunique_incl (l l' : list string) : incl l l' -> nunique l <= nunique l'.
Proof.
  intros Hincl. unfold nunique. apply inj_le. apply NoDup_incl_length.
  - apply NoDup_nodup.
  - intros x Hx. apply nodup_In. apply Hincl. now apply nodup_In in Hx.
Qed.

(** * The cohort filter, the labels and the script *)

Lemma DAY_pos : 0 < DAY.
Proof. unfold DAY. lia. Qed.

Lemma dated_column_min_max (l : list Timestamp) (bound : Z) :
  l <> [] ->
  (forall x, In x l -> exists z, x = Some z /\ z < bound) ->
  exists a m, ts_min l = Some a /\ ts_max l = Some m /\ a <= m /\ m < bound.
Proof.
  intros Hne Hdated.
  assert (Hz : exists z, In (Some z) l).
  { destruct l as [|x l]; [congruence|].
    destruct (Hdated x (or_introl eq_refl)) as (z & -> & _).
    exists z. left. reflexivity. }
  destruct Hz as [z Hz].
  pose proof (ts_max_spec l) as Hmax.
  pose proof (ts_min_spec l) as Hmin.
  destruct (ts_max l) as [m|]; [|exfalso; exact (Hmax z Hz)].
  destruct (ts_min l) as [a|]; [|exfalso; exact (Hmin z Hz)].
  exists a, m. destruct Hmax as [Hm _]. destruct Hmin as [_ Hle].
  split; [reflexivity|]. split; [reflexivity|]. split; [auto|].
  destruct (Hdated _ Hm) as (z' & Hz' & Hlt). inversion Hz'; subst. assumption.
Qed.

Section PipelineFacts.

Context {R : Type} `{Float64 R}.

Implicit Types (df observation_df outcome_df : @DataFrame R) (c : Z).
Implicit Types (features : @FeatureTable R).

(** ** Eligibility *)

Lemma eligible_iff cfg observation_df c :
  In c (eligible_customers cfg observation_df)
  <-> ts_leb (ts_min (map invoice_date (rows_of c observation_df)))
             (Some (min_acquisition_date cfg)) = true
      /\ MIN_FREQUENCY cfg <= nunique (map invoice (rows_of c observation_df)).
Proof.
  unfold eligible_customers, customer_stats, groupby.
  rewrite in_map_iff. split.
  - intros ([k a] & Hk & Hin). simpl in Hk. subst k.
    apply filter_In in Hin. destruct Hin as [Hin Hp].
    apply tabulate_In in Hin. destruct Hin as [_ ->]. simpl in Hp.
    apply andb_true_iff in Hp. destruct Hp as [Ht Hf].
    apply Z.leb_le in Hf. auto.
  - intros [Ht Hf].
    exists (c, {| first_purchase := ts_min (map invoice_date (rows_of c observation_df));
                  n_transactions := nunique (map invoice (rows_of c observation_df)) |}).
    split; [reflexivity|]. apply filter_In. split.
    + apply tabulate_In. split; [|reflexivity].
      apply key_has_rows. intros Hnil. rewrite Hnil in Ht. discriminate.
    + simpl. rewrite Ht. apply Z.leb_le in Hf. now rewrite Hf.
Qed.

Lemma feature_rows_iff cfg observation_df outcome_df c f :
  In (c, f) (features_of cfg observation_df outcome_df)
  <-> In c (eligible_customers cfg observation_df)
      /\ f = feature_row cfg
               (restrict observation_df (eligible_customers cfg observation_df))
               outcome_df (eligible_customers cfg observation_df) c.
Proof.
  rewrite features_of_rows. cbv zeta.
  rewrite tabulate_In, restricted_keys. reflexivity.
Qed.

(** C4.  A customer is in the eligible set exactly when the least
    timestamp of their observation-window lines is at most
    [OBS_END - MIN_TENURE_DAYS] days and the number of distinct invoice
    identifiers on those lines is at least [MIN_FREQUENCY]; with the tenure
    condition met, [MIN_FREQUENCY - 1] distinct invoices exclude and
    [MIN_FREQUENCY] include; and every row of the feature table belongs to
    an eligible customer. *)
Theorem eligibility_spec cfg observation_df c :
  let lines := rows_of c observation_df in
  let n := nunique (map invoice lines) in
  (In c (eligible_customers cfg observation_df)
   <-> exists first,
         is_min_ts first (map invoice_date lines)
         /\ first <= OBS_END cfg - MIN_TENURE_DAYS cfg * DAY
         /\ MIN_FREQUENCY cfg <= n)
  /\ (forall first,
         is_min_ts first (map invoice_date lines) ->
         first <= OBS_END cfg - MIN_TENURE_DAYS cfg * DAY ->
         (n = MIN_FREQUENCY cfg - 1 ->
          ~ In c (eligible_customers cfg observation_df))
         /\ (n = MIN_FREQUENCY cfg ->
             In c (eligible_customers cfg observation_df)))
  /\ (forall outcome_df f,
         In (c, f) (features_of cfg observation_df outcome_df) ->
         In c (eligible_customers cfg observation_df)).
Proof.
  intros lines n.
  assert (Hiff : In c (eligible_customers cfg observation_df)
                 <-> exists first,
                       is_min_ts first (map invoice_date lines)
                       /\ first <= OBS_END cfg - MIN_TENURE_DAYS cfg * DAY
                       /\ MIN_FREQUENCY cfg <= n).
  { rewrite eligible_iff. fold lines. fold n. unfold min_acquisition_date.
    split.
    - intros [Ht Hf].
      destruct (ts_min (map invoice_date lines)) as [first|] eqn:Hmin;
        [|discriminate].
      simpl in Ht. apply Z.leb_le in Ht. apply ts_min_iff in Hmin.
      exists first. auto.
    - intros (first & Hmin & Ht & Hf). apply ts_min_iff in Hmin.
      rewrite Hmin. simpl. split; [apply Z.leb_le|]; assumption. }
  split; [exact Hiff|]. split.
  - intros first Hmin Ht. split.
    + intros Hn Hel. apply Hiff in Hel. destruct Hel as (_ & _ & _ & Hf). lia.
    + intros Hn. apply Hiff. exists first. split; [exact Hmin|]. split; lia.
  - intros outcome_df f Hin. apply feature_rows_iff in Hin. tauto.
Qed.

(** ** Churn labels *)

Lemma purchase_customers_In outcome_df c :
  In c (purchase_customers outcome_df)
  <-> exists t, In t outcome_df /\ customer_id t = c /\ 0 < quantity t.
Proof.
  unfold purchase_customers. rewrite unique_In, in_map_iff. split.
  - intros (t & Hc & Hin). apply filter_In in Hin. destruct Hin as [Hin Hq].
    apply Z.gtb_lt in Hq. exists t. auto.
  - intros (t & Hin & Hc & Hq). exists t. split; [assumption|].
    apply filter_In. split; [assumption | now apply Z.gtb_lt].
Qed.

(** C3.  Every eligible customer has exactly one churn label, it is the
    [churned] cell of the customer's row in the feature table, and it is 1
    exactly when the outcome window holds no line of that customer with
    [quantity > 0], else 0; so a customer whose outcome-window lines (if
    any) are all returns is labelled 1. *)
Theorem churn_label_spec cfg observation_df outcome_df c :
  In c (eligible_customers cfg observation_df) ->
  exists label f,
    In (c, label)
       (churn_labels (eligible_customers cfg observation_df) outcome_df)
    /\ (forall label',
          In (c, label')
             (churn_labels (eligible_customers cfg observation_df) outcome_df)
          -> label' = label)
    /\ In (c, f) (features_of cfg observation_df outcome_df)
    /\ churned f = Some label
    /\ (label = 1
        <-> ~ exists t, In t outcome_df /\ customer_id t = c /\ 0 < quantity t)
    /\ (label = 0
        <-> exists t, In t outcome_df /\ customer_id t = c /\ 0 < quantity t)
    /\ ((forall t, In t outcome_df -> customer_id t = c -> quantity t < 0)
        -> label = 1).
Proof.
  intros Hel.
  set (E := eligible_customers cfg observation_df) in *.
  exists (if negb (isin c (purchase_customers outcome_df)) then 1 else 0).
  exists (feature_row cfg (restrict observation_df E) outcome_df E c).
  assert (Hp : isin c (purchase_customers outcome_df) = true
               <-> exists t, In t outcome_df /\ customer_id t = c
                             /\ 0 < quantity t)
    by (rewrite isin_In; apply purchase_customers_In).
  split; [apply tabulate_In; auto|].
  split; [intros label' Hin; apply tabulate_In in Hin; tauto|].
  split; [apply feature_rows_iff; auto|].
  split.
  { simpl. apply isin_In in Hel. fold E. now rewrite Hel. }
  destruct (isin c (purchase_customers outcome_df)); simpl.
  - assert (Hex : exists t, In t outcome_df /\ customer_id t = c
                            /\ 0 < quantity t) by (apply Hp; reflexivity).
    split; [split; [discriminate | tauto]|].
    split; [tauto|].
    intros Hall. destruct Hex as (t & Hin & Hc & Hq).
    specialize (Hall t Hin Hc). lia.
  - assert (Hnex : ~ exists t, In t outcome_df /\ customer_id t = c
                               /\ 0 < quantity t)
      by (intros Hex; apply Hp in Hex; discriminate).
    split; [tauto|]. split; [|reflexivity].
    split; [discriminate | tauto].
Qed.

(** ** Recency and tenure *)

Lemma restricted_rows_dated cfg df c :
  let windows := split_by_time_window df (OBS_END cfg) (OUTCOME_START cfg) in
  let eligible := eligible_customers cfg (fst windows) in
  In c eligible ->
  exists a m,
    ts_min (map invoice_date (rows_of c (restrict (fst windows) eligible)))
      = Some a
    /\ ts_max (map invoice_date (rows_of c (restrict (fst windows) eligible)))
      = Some m
    /\ a <= m /\ m < OBS_END cfg.
Proof.
  intros windows eligible Hel.
  apply dated_column_min_max.
  - intros Hnil. apply map_eq_nil in Hnil. revert Hnil.
    apply key_has_rows. apply restricted_keys. assumption.
  - intros x Hx. apply in_map_iff in Hx. destruct Hx as (t & <- & Ht).
    apply rows_of_In in Ht. destruct Ht as [Ht _].
    unfold restrict in Ht. apply filter_In in Ht. destruct Ht as [Ht _].
    apply split_observation in Ht. tauto.
Qed.

Lemma feature_row_days cfg df c f :
  let windows := split_by_time_window df (OBS_END cfg) (OUTCOME_START cfg) in
  In (c, f) (features_of cfg (fst windows) (snd windows)) ->
  exists a m,
    a <= m /\ m < OBS_END cfg
    /\ recency f = Some (days (OBS_END cfg - m))
    /\ days_as_customer f = Some (days (m - a)).
Proof.
  intros windows Hin. apply feature_rows_iff in Hin.
  destruct Hin as [Hel ->].
  destruct (restricted_rows_dated cfg df c Hel) as (a & m & Ha & Hm & Hle & Hlt).
  fold windows in Ha, Hm.
  exists a, m. unfold feature_row. cbn [recency days_as_customer].
  rewrite Ha, Hm. simpl. auto.
Qed.

Lemma days_nonneg delta : 0 <= delta -> 0 <= days delta.
Proof. intros Hd. unfold days. apply Z.div_pos; [assumption | apply DAY_pos]. Qed.

(** C7.  With the observation window cut strictly below [OBS_END], as the
    splitter does, every row of the feature table has a recency and a
    [days_as_customer], and both are at least 0. *)
Theorem recency_and_tenure_nonnegative cfg df c f :
  let windows := split_by_time_window df (OBS_END cfg) (OUTCOME_START cfg) in
  In (c, f) (features_of cfg (fst windows) (snd windows)) ->
  exists r d,
    recency f = Some r /\ 0 <= r
    /\ days_as_customer f = Some d /\ 0 <= d.
Proof.
  intros windows Hin.
  destruct (feature_row_days cfg df c f Hin) as (a & m & Hle & Hlt & Hr & Hd).
  exists (days (OBS_END cfg - m)), (days (m - a)).
  split; [assumption|]. split; [apply days_nonneg; lia|].
  split; [assumption | apply days_nonneg; lia].
Qed.

(** ** Return metrics, in any arithmetic *)

Lemma eligible_rows_nonempty cfg observation_df c :
  In c (eligible_customers cfg observation_df) ->
  rows_of c observation_df <> [].
Proof.
  intros Hel. apply key_has_rows. eapply eligible_in_stats. eassumption.
Qed.

Lemma returns_row_spec cfg observation_df outcome_df c :
  In c (eligible_customers cfg observation_df) ->
  let restricted :=
    restrict observation_df (eligible_customers cfg observation_df) in
  exists r f,
    In (c, r) (returns restricted (rfm cfg restricted))
    /\ In (c, f) (features_of cfg observation_df outcome_df)
    /\ n_return_invoices f = Some (r_n_return_invoices r)
    /\ return_amount_ f = Some (r_return_amount r)
    /\ return_rate f = Some (r_return_rate r)
    /\ has_returns f = Some (r_has_returns r)
    /\ 1 <= frequency f
    /\ 0 <= r_n_return_invoices r <= frequency f
    /\ r_return_rate r
       = f_div (f_of_Z (r_n_return_invoices r)) (f_of_Z (frequency f))
    /\ (r_has_returns r = true <-> 0 < r_n_return_invoices r)
    /\ ((forall t, In t observation_df -> customer_id t = c ->
                   is_return t = false) ->
        r_n_return_invoices r = 0 /\ r_return_amount r = f_zero
        /\ r_has_returns r = false).
Proof.
  intros Hel restricted.
  set (E := eligible_customers cfg observation_df) in *.
  pose proof (eligible_rows_nonempty cfg observation_df c Hel) as Hne.
  eexists. exists (feature_row cfg restricted outcome_df E c).
  split.
  { apply returns_rows. split; [|reflexivity].
    apply restricted_keys. assumption. }
  split; [apply feature_rows_iff; auto|].
  unfold feature_row.
  cbn [n_return_invoices return_amount_ return_rate has_returns frequency
       r_n_return_invoices r_return_amount r_return_rate r_has_returns].
  unfold restricted. rewrite (rows_of_restrict c observation_df E Hel).
  set (g := rows_of c observation_df) in *.
  set (n := match filter is_return g with
            | [] => 0
            | _ => nunique (map invoice (filter is_return g))
            end).
  assert (Hfreq : 1 <= nunique (map invoice g)).
  { apply nunique_pos. intros Hnil. apply map_eq_nil in Hnil. auto. }
  assert (Hn : 0 <= n <= nunique (map invoice g)).
  { unfold n. destruct (filter is_return g) as [|t ret] eqn:Hret; [lia|].
    rewrite <- Hret. split; [apply nunique_nonneg|].
    apply nunique_incl. intros x Hx. apply in_map_iff in Hx.
    destruct Hx as (u & <- & Hu). apply filter_In in Hu.
    apply in_map. tauto. }
  do 4 (split; [reflexivity|]).
  split; [assumption|]. split; [assumption|]. split; [reflexivity|].
  split; [apply Z.ltb_lt|].
  intros Hnone.
  assert (Hret : filter is_return g = []).
  { destruct (filter is_return g) as [|t ret] eqn:Hret; [reflexivity|].
    assert (Ht : In t (filter is_return g)) by (rewrite Hret; now left).
    apply filter_In in Ht. destruct Ht as [Ht Hr].
    apply rows_of_In in Ht. destruct Ht as [Ht Hc].
    rewrite (Hnone t Ht Hc) in Hr. discriminate. }
  unfold n. rewrite Hret. repeat split.
Qed.

(** The two velocity columns are computed from the [frequency] and the
    [days_as_customer] cells of the same row, in any arithmetic. *)
Lemma velocity_columns cfg observation_df outcome_df c f :
  In (c, f) (features_of cfg observation_df outcome_df) ->
  purchase_velocity f
  = option_map (velocity (frequency f)) (days_as_customer f)
  /\ avg_days_between_purchases f
     = option_map (avg_days (frequency f)) (days_as_customer f).
Proof.
  intros Hin. apply feature_rows_iff in Hin. destruct Hin as [_ ->].
  split; reflexivity.
Qed.

(** ** Steps 9 to 11 *)



(** ** Determinism *)

Lemma exported_table cfg df file printed file' :
  feature_engineering cfg df file = (Finished printed, file') ->
  let windows := split_by_time_window df (OBS_END cfg) (OUTCOME_START cfg) in
  file' = Some (features_of cfg (fst windows) (snd windows)).
Proof.
  unfold feature_engineering, validate_report_export.
  destruct (check_data_leakage _ _); [discriminate|].
  destruct (List.length (customer_stats _) =? 0)%nat; [discriminate|].
  destruct (generate_feature_report _); [discriminate|].
  intros Heq. inversion Heq. reflexivity.
Qed.


End PipelineFacts.

(** * Exact arithmetic: the float columns read over the rationals *)

Local Open Scope Q_scope.

Lemma fold_Qplus_acc (l : list Q) (a : Q) :
  fold_left Qplus l a == a + fold_left Qplus l 0.
Proof.
  revert a. induction l as [|x l IH]; intros a; simpl.
  - ring.
  - rewrite (IH (a + x)), (IH (0 + x)). ring.
Qed.

Lemma fsum_Q_cons (x : Q) (l : list Q) : fsum (x :: l) == x + fsum l.
Proof.
  unfold fsum. simpl. rewrite fold_Qplus_acc. ring.
Qed.

Lemma f_gt0_Q (x : Q) : f_gt0 x = true <-> 0 < x.
Proof.
  simpl. rewrite negb_true_iff. split.
  - intros Hb. apply Qnot_le_lt. intros Hle.
    apply Qle_bool_iff in Hle. congruence.
  - intros Hlt. destruct (Qle_bool x 0) eqn:Hb; [|reflexivity].
    apply Qle_bool_iff in Hb. exfalso. apply (Qlt_not_le _ _ Hlt Hb).
Qed.

Lemma f_lt0_Q (x : Q) : f_lt0 x = true <-> x < 0.
Proof.
  simpl. rewrite negb_true_iff. split.
  - intros Hb. apply Qnot_le_lt. intros Hle.
    apply Qle_bool_iff in Hle. congruence.
  - intros Hlt. destruct (Qle_bool 0 x) eqn:Hb; [|reflexivity].
    apply Qle_bool_iff in Hb. exfalso. apply (Qlt_not_le _ _ Hlt Hb).
Qed.

Lemma fsum_Q_nonneg (l : list Q) : (forall x, In x l -> 0 <= x) -> 0 <= fsum l.
Proof.
  induction l as [|x l IH]; intros Hall.
  - apply Qle_refl.
  - rewrite fsum_Q_cons.
    rewrite <- (Qplus_0_l 0). apply Qplus_le_compat.
    + apply Hall. left. reflexivity.
    + apply IH. intros y Hy. apply Hall. right. assumption.
Qed.

Lemma fsum_Q_nonpos (l : list Q) : (forall x, In x l -> x <= 0) -> fsum l <= 0.
Proof.
  induction l as [|x l IH]; intros Hall.
  - apply Qle_refl.
  - rewrite fsum_Q_cons.
    rewrite <- (Qplus_0_l 0). apply Qplus_le_compat.
    + apply Hall. left. reflexivity.
    + apply IH. intros y Hy. apply Hall. right. assumption.
Qed.

Lemma gross_Q_nonneg (l : list Q) : 0 <= fsum (filter f_gt0 l).
Proof.
  apply fsum_Q_nonneg. intros x Hx. apply filter_In in Hx.
  destruct Hx as [_ Hx]. apply f_gt0_Q in Hx. now apply Qlt_le_weak.
Qed.

(** Net = purchases + returns, when the return lines are the negative
    ones and no line is zero. *)
Lemma net_splits (g : @DataFrame Q) :
  (forall t, In t g ->
             if is_return t then total_amount t < 0 else 0 < total_amount t) ->
  fsum (map total_amount g)
  == fsum (filter f_gt0 (map total_amount g))
     + fsum (map total_amount (filter is_return g)).
Proof.
  induction g as [|t g IH]; intros Hsign.
  - reflexivity.
  - assert (IH' := IH (fun u Hu => Hsign u (or_intror Hu))).
    specialize (Hsign t (or_introl eq_refl)).
    cbn [map filter]. rewrite fsum_Q_cons, IH'.
    destruct (is_return t).
    + assert (Hg : f_gt0 (total_amount t) = false).
      { destruct (f_gt0 (total_amount t)) eqn:Hb; [|reflexivity].
        apply f_gt0_Q in Hb. exfalso.
        apply (Qlt_irrefl 0). eapply Qlt_trans; eassumption. }
      rewrite Hg. cbn [map]. rewrite fsum_Q_cons. ring.
    + assert (Hg : f_gt0 (total_amount t) = true) by (now apply f_gt0_Q).
      rewrite Hg. rewrite fsum_Q_cons. ring.
Qed.

Lemma returns_sum_nonpos (g : @DataFrame Q) :
  (forall t, In t g ->
             if is_return t then total_amount t < 0 else 0 < total_amount t) ->
  fsum (map total_amount (filter is_return g)) <= 0.
Proof.
  intros Hsign. apply fsum_Q_nonpos. intros x Hx.
  apply in_map_iff in Hx. destruct Hx as (t & <- & Ht).
  apply filter_In in Ht. destruct Ht as [Ht Hr].
  specialize (Hsign t Ht). rewrite Hr in Hsign. now apply Qlt_le_weak.
Qed.

Lemma ratio_in_unit_interval (n f : Z) :
  (0 <= n <= f)%Z -> (1 <= f)%Z ->
  0 <= inject_Z n / inject_Z f /\ inject_Z n / inject_Z f <= 1.
Proof.
  intros [Hn Hnf] Hf.
  assert (Hfpos : 0 < inject_Z f).
  { change 0 with (inject_Z 0). rewrite <- Zlt_Qlt. lia. }
  split.
  - apply Qle_shift_div_l; [assumption|]. rewrite Qmult_0_l.
    change 0 with (inject_Z 0). rewrite <- Zle_Qle. assumption.
  - apply Qle_shift_div_r; [assumption|]. rewrite Qmult_1_l.
    rewrite <- Zle_Qle. assumption.
Qed.

Lemma velocity_times_avg_days (frequency d : Z) :
  (1 <= frequency)%Z -> (0 <= d)%Z ->
  @velocity Q _ frequency d * @avg_days Q _ frequency d == 30.
Proof.
  intros Hf Hd. unfold velocity, avg_days. simpl.
  assert (Hf0 : ~ inject_Z frequency == 0).
  { change 0 with (inject_Z 0). rewrite inject_Z_injective. lia. }
  assert (Hd0 : ~ inject_Z (d + 1) == 0).
  { change 0 with (inject_Z 0). rewrite inject_Z_injective. lia. }
  field. split; assumption.
Qed.

(** ** Return metrics *)

(** C5.  Every eligible customer has a row in the returns table, whose
    cells are the return columns of the customer's feature row; in it
    [return_rate] is [n_return_invoices / frequency] with [frequency >= 1],
    it lies between 0 and 1, [has_returns] is true exactly when
    [n_return_invoices > 0], and a customer with no return line has
    [n_return_invoices = 0], [return_amount = 0], [return_rate = 0] and
    [has_returns] false. *)
Theorem return_metrics_spec cfg (observation_df outcome_df : @DataFrame Q) c :
  In c (eligible_customers cfg observation_df) ->
  let restricted :=
    restrict observation_df (eligible_customers cfg observation_df) in
  exists r f,
    In (c, r) (returns restricted (rfm cfg restricted))
    /\ In (c, f) (features_of cfg observation_df outcome_df)
    /\ n_return_invoices f = Some (r_n_return_invoices r)
    /\ return_amount_ f = Some (r_return_amount r)
    /\ return_rate f = Some (r_return_rate r)
    /\ has_returns f = Some (r_has_returns r)
    /\ (1 <= frequency f)%Z
    /\ r_return_rate r
       = inject_Z (r_n_return_invoices r) / inject_Z (frequency f)
    /\ 0 <= r_return_rate r /\ r_return_rate r <= 1
    /\ (r_has_returns r = true <-> (0 < r_n_return_invoices r)%Z)
    /\ ((forall t, In t observation_df -> customer_id t = c ->
                   is_return t = false) ->
        r_n_return_invoices r = 0%Z /\ r_return_amount r = 0
        /\ r_return_rate r == 0 /\ r_has_returns r = false).
Proof.
  intros Hel restricted.
  destruct (returns_row_spec cfg observation_df outcome_df c Hel)
    as (r & f & Hr & Hf & Hn & Ha & Hrate & Hhas & Hfreq & Hbound & Hdiv
        & Hflag & Hnone).
  exists r, f.
  do 6 (split; [assumption|]). split; [assumption|].
  split; [exact Hdiv|].
  rewrite Hdiv.
  destruct (ratio_in_unit_interval _ _ Hbound Hfreq) as [Hlo Hhi].
  split; [exact Hlo|]. split; [exact Hhi|]. split; [exact Hflag|].
  intros Hno. destruct (Hnone Hno) as (Hn0 & Ha0 & Hh0).
  split; [assumption|]. split; [exact Ha0|]. split; [|assumption].
  rewrite Hn0. reflexivity.
Qed.

(** ** Monetary identity *)

(** C6, over exact arithmetic.  For every row of the feature table,
    [monetary_gross >= 0]; and when every observation-window line of the
    customer flagged as a return has a negative amount and every other line
    a positive one (so no line has amount zero), [return_amount] is the
    absolute value of the sum over the return lines and
    [monetary_net + return_amount = monetary_gross]. *)
Theorem monetary_identity_exact cfg (observation_df outcome_df : @DataFrame Q)
    c f :
  In (c, f) (features_of cfg observation_df outcome_df) ->
  0 <= monetary_gross f
  /\ ((forall t, In t observation_df -> customer_id t = c ->
                 if is_return t then total_amount t < 0
                 else 0 < total_amount t) ->
      exists ra,
        return_amount_ f = Some ra
        /\ ra == Qabs (fsum (map total_amount
                                 (filter is_return (rows_of c observation_df))))
        /\ monetary_net f + ra == monetary_gross f).
Proof.
  intros Hin. apply feature_rows_iff in Hin. destruct Hin as [Hel ->].
  unfold feature_row. cbn [monetary_gross monetary_net return_amount_].
  rewrite (rows_of_restrict c observation_df _ Hel).
  set (g := rows_of c observation_df).
  split; [apply gross_Q_nonneg|].
  intros Hsign.
  assert (Hg : forall t, In t g ->
                 if is_return t then total_amount t < 0
                 else 0 < total_amount t).
  { intros t Ht. apply rows_of_In in Ht. destruct Ht as [Ht Hc].
    exact (Hsign t Ht Hc). }
  pose proof (net_splits g Hg) as Hnet.
  pose proof (returns_sum_nonpos g Hg) as Hneg.
  eexists. split; [reflexivity|].
  assert (Hra : match filter is_return g with
                | [] => f_zero
                | _ => f_abs (fsum (map total_amount (filter is_return g)))
                end
                == Qabs (fsum (map total_amount (filter is_return g)))).
  { destruct (filter is_return g); reflexivity. }
  split; [exact Hra|].
  rewrite Hra, Hnet, (Qabs_neg _ Hneg). ring.
Qed.

(** The sign condition holds on lines whose derived columns follow the
    data model: [total_amount = quantity * price] with a non-negative
    price, [is_return] set on negative quantities, and a non-zero amount. *)
Lemma sign_condition_of_derived_columns (t : @Transaction Q) :
  total_amount t == inject_Z (quantity t) * price t ->
  0 <= price t ->
  is_return t = (quantity t <? 0)%Z ->
  ~ total_amount t == 0 ->
  if is_return t then total_amount t < 0 else 0 < total_amount t.
Proof.
  intros Hamount Hprice Hflag Hnz. rewrite Hflag.
  assert (Hp : 0 < price t).
  { apply Qle_lt_or_eq in Hprice. destruct Hprice as [Hp|Hp]; [assumption|].
    exfalso. apply Hnz. rewrite Hamount, <- Hp. ring. }
  destruct (quantity t <? 0)%Z eqn:Hq.
  - apply Z.ltb_lt in Hq. rewrite Zlt_Qlt in Hq. change (inject_Z 0) with 0 in Hq.
    rewrite Hamount. nra.
  - apply Z.ltb_ge in Hq.
    assert (Hq0 : (quantity t <> 0)%Z).
    { intros Hz. apply Hnz. rewrite Hamount, Hz. ring. }
    assert (Hq' : (0 < quantity t)%Z) by lia.
    rewrite Zlt_Qlt in Hq'. change (inject_Z 0) with 0 in Hq'.
    rewrite Hamount. nra.
Qed.

(** ** Velocity *)

(** C8, over exact arithmetic.  In every row of the feature table built
    from the split windows, [purchase_velocity] is
    [frequency / ((days_as_customer + 1) / 30)],
    [avg_days_between_purchases] is [(days_as_customer + 1) / frequency],
    and the product of the two is 30. *)
Theorem velocity_inverse_exact cfg (df : @DataFrame Q) c f :
  let windows := split_by_time_window df (OBS_END cfg) (OUTCOME_START cfg) in
  In (c, f) (features_of cfg (fst windows) (snd windows)) ->
  exists d v a,
    days_as_customer f = Some d
    /\ purchase_velocity f = Some v
    /\ avg_days_between_purchases f = Some a
    /\ v = inject_Z (frequency f) / (inject_Z (d + 1) / inject_Z 30)
    /\ a = inject_Z (d + 1) / inject_Z (frequency f)
    /\ v * a == 30.
Proof.
  intros windows Hin. apply feature_rows_iff in Hin.
  destruct Hin as [Hel ->].
  destruct (restricted_rows_dated cfg df c Hel) as (a & m & Ha & Hm & Hle & _).
  fold windows in Ha, Hm.
  assert (Hfreq :
    (1 <= nunique (map invoice
            (rows_of c (restrict (fst windows)
                                 (eligible_customers cfg (fst windows))))))%Z).
  { apply nunique_pos. intros Hnil. apply map_eq_nil in Hnil. revert Hnil.
    apply key_has_rows. apply restricted_keys. assumption. }
  unfold feature_row.
  cbn [days_as_customer purchase_velocity avg_days_between_purchases frequency].
  rewrite Ha, Hm. cbn [span_days option_map].
  do 3 eexists. do 5 (split; [reflexivity|]).
  apply velocity_times_avg_days; [assumption|].
  unfold days. apply Z.div_pos; [lia | apply DAY_pos].
Qed.

(** ** The tables the script builds pass the fatal-class checks *)

Lemma existsb_false_forall {A} (p : A -> bool) (l : list A) :
  (forall x, In x l -> p x = false) -> existsb p l = false.
Proof.
  induction l as [|x l IH]; intros Hall; simpl; [reflexivity|].
  rewrite (Hall x (or_introl eq_refl)), IH; [reflexivity|].
  intros y Hy. apply Hall. right. assumption.
Qed.

Lemma script_tables_pass_fatal_checks cfg (df : @DataFrame Q) :
  let windows := split_by_time_window df (OBS_END cfg) (OUTCOME_START cfg) in
  fatal_check_fails (features_of cfg (fst windows) (snd windows)) = false.
Proof.
  intros windows. unfold fatal_check_fails.
  assert (Hrec : negative_recency
                   (features_of cfg (fst windows) (snd windows)) = false).
  { apply existsb_false_forall. intros [c f] Hin.
    destruct (feature_row_days cfg df c f Hin) as (a & m & _ & Hlt & Hr & _).
    simpl. rewrite Hr. apply Z.ltb_ge. apply days_nonneg. lia. }
  assert (Hlab : missing_churn_labels
                   (features_of cfg (fst windows) (snd windows)) = false).
  { apply existsb_false_forall. intros [c f] Hin.
    apply feature_rows_iff in Hin. destruct Hin as [Hel ->].
    apply isin_In in Hel. cbn [snd feature_row churned].
    rewrite Hel. reflexivity. }
  assert (Hdup : duplicate_customer_ids
                   (features_of cfg (fst windows) (snd windows)) = false).
  { unfold duplicate_customer_ids. rewrite features_of_rows. cbv zeta.
    rewrite tabulate_keys. apply duplicated_any_false, group_keys_NoDup. }
  assert (Hgross : negative_monetary_gross
                     (features_of cfg (fst windows) (snd windows)) = false).
  { apply existsb_false_forall. intros [c f] Hin.
    apply feature_rows_iff in Hin. destruct Hin as [_ ->].
    cbn [snd feature_row monetary_gross].
    match goal with |- f_lt0 ?x = false =>
      destruct (f_lt0 x) eqn:Hb; [|reflexivity];
      apply f_lt0_Q in Hb; exfalso;
      apply (Qlt_not_le _ _ Hb (gross_Q_nonneg _))
    end. }
  rewrite Hrec, Hlab, Hdup, Hgross. reflexivity.
Qed.

(** * The example data, run *)

Import Examples.

Local Open Scope Z_scope.

Lemma retail_eligible :
  eligible_customers cfg (fst retail_windows) = [7; 8].
Proof. vm_compute. reflexivity. Qed.



(** C2: with every transaction dated before the two boundaries the outcome
    window is empty; its least timestamp is [NaT], so the greatest
    observation timestamp is not strictly less than it, and yet
    [check_data_leakage] does not raise. *)
Lemma leakage_guard_empty_window_counterexample :
  snd early_windows = []
  /\ ts_ltb (ts_max (map invoice_date (fst early_windows)))
            (ts_min (map invoice_date (snd early_windows))) = false
  /\ check_data_leakage (fst early_windows) (snd early_windows)
     = inr [log_info "No temporal data leakage detected"].
Proof. repeat split. Qed.

(** Customer 8 is eligible and has only a return line in the outcome
    window: the label is 1. *)
Lemma churn_label_spec_witness :
  In 8 (eligible_customers cfg (fst retail_windows))
  /\ exists f,
       In (8, f) (features_of cfg (fst retail_windows) (snd retail_windows))
       /\ churned f = Some 1.
Proof.
  assert (Hel : In 8 (eligible_customers cfg (fst retail_windows)))
    by (rewrite retail_eligible; simpl; auto).
  split; [exact Hel|].
  destruct (churn_label_spec cfg (fst retail_windows) (snd retail_windows) 8 Hel)
    as (label & f & _ & _ & Hin & Hch & _ & _ & Hret).
  exists f. split; [exact Hin|]. rewrite Hch. f_equal. apply Hret.
  intros t Ht Hc. simpl in Ht.
  destruct Ht as [<-|[<-|[]]]; [discriminate Hc | reflexivity].
Defined.

(** Customer 7 has exactly [MIN_FREQUENCY] invoices and is eligible;
    customer 10, as old, has [MIN_FREQUENCY - 1] and is not. *)
Lemma eligibility_spec_witness :
  In 7 (eligible_customers cfg (fst retail_windows))
  /\ ~ In 10 (eligible_customers cfg (fst retail_windows)).
Proof.
  split.
  - refine (proj2 (proj1 (proj2 (eligibility_spec cfg (fst retail_windows) 7))
                          (14944 * DAY) _ _) _).
    + apply ts_min_iff. vm_compute. reflexivity.
    + vm_compute. discriminate.
    + vm_compute. reflexivity.
  - refine (proj1 (proj1 (proj2 (eligibility_spec cfg (fst retail_windows) 10))
                          (14944 * DAY) _ _) _).
    + apply ts_min_iff. vm_compute. reflexivity.
    + vm_compute. discriminate.
    + vm_compute. reflexivity.
Defined.

Lemma empty_window_passes_leakage_guard_witness :
  check_data_leakage (@nil (@Transaction Q)) (snd retail_windows)
  = inr [log_info "No temporal data leakage detected"].
Proof.
  exact (proj2 (empty_window_passes_leakage_guard
                  (@nil (@Transaction Q)) (snd retail_windows)
                  (or_introl eq_refl))).
Defined.

Lemma recency_and_tenure_nonnegative_witness :
  exists f r d,
    In (7, f) (features_of cfg (fst retail_windows) (snd retail_windows))
    /\ recency f = Some r /\ 0 <= r
    /\ days_as_customer f = Some d /\ 0 <= d.
Proof.
  assert (Hin : In (7, feature_row cfg
                         (restrict (fst retail_windows)
                                   (eligible_customers cfg (fst retail_windows)))
                         (snd retail_windows)
                         (eligible_customers cfg (fst retail_windows)) 7)
                   (features_of cfg (fst retail_windows) (snd retail_windows))).
  { apply feature_rows_iff. split; [|reflexivity].
    rewrite retail_eligible. left. reflexivity. }
  destruct (recency_and_tenure_nonnegative cfg retail 7 _ Hin)
    as (r & d & Hr).
  eexists. exists r, d. split; [exact Hin | exact Hr].
Defined.

Local Open Scope Q_scope.

Lemma return_metrics_spec_witness :
  In 7%Z (eligible_customers cfg (fst retail_windows))
  /\ exists f rate,
       In (7%Z, f) (features_of cfg (fst retail_windows) (snd retail_windows))
       /\ return_rate f = Some rate /\ 0 <= rate /\ rate <= 1.
Proof.
  assert (Hel : In 7%Z (eligible_customers cfg (fst retail_windows)))
    by (rewrite retail_eligible; simpl; auto).
  split; [exact Hel|].
  destruct (return_metrics_spec cfg (fst retail_windows) (snd retail_windows)
                                7%Z Hel)
    as (r & f & _ & Hin & _ & _ & Hrate & _ & _ & _ & Hlo & Hhi & _).
  exists f, (r_return_rate r). repeat split; assumption.
Defined.

Lemma monetary_identity_exact_witness :
  exists f ra,
    In (7%Z, f) (features_of cfg (fst retail_windows) (snd retail_windows))
    /\ return_amount_ f = Some ra
    /\ monetary_net f + ra == monetary_gross f.
Proof.
  assert (Hin : In (7%Z, feature_row cfg
                         (restrict (fst retail_windows)
                                   (eligible_customers cfg (fst retail_windows)))
                         (snd retail_windows)
                         (eligible_customers cfg (fst retail_windows)) 7%Z)
                   (features_of cfg (fst retail_windows) (snd retail_windows))).
  { apply feature_rows_iff. split; [|reflexivity].
    rewrite retail_eligible. left. reflexivity. }
  destruct (monetary_identity_exact cfg _ _ 7%Z _ Hin) as [_ Hid].
  assert (Hsign : forall t, In t (fst retail_windows) ->
                    customer_id t = 7%Z ->
                    if is_return t then total_amount t < 0
                    else 0 < total_amount t).
  { intros t Ht Hc. simpl in Ht.
    repeat (destruct Ht as [<-|Ht];
            [first [discriminate Hc | vm_compute; reflexivity]|]).
    destruct Ht. }
  destruct (Hid Hsign) as (ra & Hra & _ & Hsum).
  eexists. exists ra. split; [exact Hin|]. split; assumption.
Defined.

Lemma velocity_inverse_exact_witness :
  exists f v a,
    In (7%Z, f) (features_of cfg (fst retail_windows) (snd retail_windows))
    /\ purchase_velocity f = Some v
    /\ avg_days_between_purchases f = Some a
    /\ v * a == 30.
Proof.
  assert (Hin : In (7%Z, feature_row cfg
                         (restrict (fst retail_windows)
                                   (eligible_customers cfg (fst retail_windows)))
                         (snd retail_windows)
                         (eligible_customers cfg (fst retail_windows)) 7%Z)
                   (features_of cfg (fst retail_windows) (snd retail_windows))).
  { apply feature_rows_iff. split; [|reflexivity].
    rewrite retail_eligible. left. reflexivity. }
  destruct (velocity_inverse_exact cfg retail 7%Z _ Hin)
    as (d & v & a & _ & Hv & Ha & _ & _ & Hprod).
  eexists. exists v, a. split; [exact Hin|]. repeat split; assumption.
Defined.

(** C6: two runs without a zero-amount line on which the identity fails.
    In binary64, one purchase of 0.85 and one return of 0.29 (the return
    line is the negative one) give [monetary_net = 0.56] and
    [0.56 + 0.29 <> 0.85].  In exact arithmetic, a line of amount -5 that
    is not flagged [is_return] lowers [monetary_net] to 5 and leaves
    [return_amount] at 0, against a [monetary_gross] of 10. *)
Lemma monetary_identity_counterexample :
  (forallb (fun t => negb (PrimFloat.eqb (total_amount t) 0%float)
                     && Bool.eqb (is_return t)
                                 (PrimFloat.ltb (total_amount t) 0%float))
           retail_binary64 = true
   /\ exists f ra,
        snd (feature_engineering cfg retail_binary64 None) = Some [(7%Z, f)]
        /\ return_amount_ f = Some ra
        /\ PrimFloat.eqb (PrimFloat.add (monetary_net f) ra)
                         (monetary_gross f) = false)
  /\ (forallb (fun t => negb (Qeq_bool (total_amount t) 0)) retail_unflagged
      = true
      /\ exists f ra,
           snd (feature_engineering cfg retail_unflagged None)
           = Some [(7%Z, f)]
           /\ return_amount_ f = Some ra
           /\ ~ monetary_net f + ra == monetary_gross f).
Proof.
  split.
  - split; [vm_compute; reflexivity|].
    eexists. eexists. split; [vm_compute; reflexivity|].
    split; [reflexivity | vm_compute; reflexivity].
  - split; [vm_compute; reflexivity|].
    eexists. eexists. split; [vm_compute; reflexivity|].
    split; [reflexivity|]. intros Heq. vm_compute in Heq. discriminate Heq.
Qed.

(** C8: in binary64, with [frequency = 2] and [days_as_customer = 94], the
    product of [2 / (95 / 30)] and [95 / 2] is not 30. *)
Lemma velocity_product_binary64_counterexample :
  exists f v a,
    snd (feature_engineering cfg retail_binary64 None) = Some [(7%Z, f)]
    /\ frequency f = 2%Z
    /\ days_as_customer f = Some 94%Z
    /\ purchase_velocity f = Some v
    /\ avg_days_between_purchases f = Some a
    /\ v = PrimFloat.div 2%float (PrimFloat.div 95%float 30%float)
    /\ a = PrimFloat.div 95%float 2%float
    /\ PrimFloat.eqb (PrimFloat.mul v a) 30%float = false.
Proof.
  do 3 eexists. split; [vm_compute; reflexivity|].
  repeat split.
Qed.

(** C5 in binary64, checked on every pair [0 <= n <= frequency <= 200]:
    the rounded quotient stays within [[0, 1]]. *)
Lemma return_rate_binary64_small :
  forallb (fun frequency =>
     forallb (fun n =>
        let rate := @f_div float _ (f_of_Z (Z.of_nat n))
                                   (f_of_Z (Z.of_nat frequency)) in
        PrimFloat.leb 0%float rate && PrimFloat.leb rate 1%float)
       (seq 0 (S frequency)))
    (seq 1 200) = true.
Proof. vm_compute. reflexivity. Qed.

(** * Further properties of the splitter and the leakage guard *)

Local Open Scope Z_scope.

Section SplitterProperties.

Context {R : Type} `{Float64 R}.

Implicit Types (df : @DataFrame R).

(** X1.  Split at one shared boundary, the two windows and the undated
    rows account for every row of the frame exactly once. *)
Theorem split_shared_boundary_partitions df boundary :
  let windows := split_by_time_window df boundary boundary in
  (List.length (fst windows) + List.length (snd windows)
   + List.length (filter (fun t => negb (dated t)) df)
   = List.length df)%nat.
Proof.
  cbn [split_by_time_window fst snd].
  induction df as [|t df IH]; [reflexivity|].
  cbn [filter]. unfold dated, ts_ltb, ts_geb in *.
  destruct (invoice_date t) as [x|]; cbn [negb].
  - destruct (x <? boundary) eqn:Hlt; destruct (boundary <=? x) eqn:Hle;
      cbn [List.length].
    + apply Z.ltb_lt in Hlt. apply Z.leb_le in Hle. lia.
    + lia.
    + lia.
    + apply Z.ltb_ge in Hlt. apply Z.leb_gt in Hle. lia.
  - cbn [List.length]. lia.
Qed.

Lemma filter_filter_implied {A} (p q : A -> bool) (l : list A) :
  (forall x, p x = true -> q x = true) ->
  filter p (filter q l) = filter p l.
Proof.
  intros Himp. induction l as [|x l IH]; [reflexivity|].
  cbn [filter]. destruct (q x) eqn:Hq; cbn [filter].
  - rewrite IH. reflexivity.
  - destruct (p x) eqn:Hp; [|exact IH].
    rewrite (Himp x Hp) in Hq. discriminate.
Qed.

(** X2.  Rows without a timestamp reach neither window: splitting a frame
    gives the same two windows as splitting its dated rows. *)
Theorem split_drops_undated df observation_end outcome_start :
  split_by_time_window df observation_end outcome_start
  = split_by_time_window (filter dated df) observation_end outcome_start.
Proof.
  unfold split_by_time_window.
  rewrite !filter_filter_implied; [reflexivity| |];
    intros t; unfold dated, ts_geb, ts_ltb;
    destruct (invoice_date t); congruence.
Qed.

Lemma leakage_iff_overlap df observation_end outcome_start :
  let windows := split_by_time_window df observation_end outcome_start in
  (exists e, check_data_leakage (fst windows) (snd windows) = inl e)
  <-> exists t x, In t df /\ invoice_date t = Some x
                  /\ outcome_start <= x < observation_end.
Proof.
  intros windows. rewrite check_data_leakage_raises. split.
  - intros (a & b & [Ha _] & [Hb _] & Hle).
    apply in_map_iff in Ha. destruct Ha as (ta & Hda & Hta).
    apply in_map_iff in Hb. destruct Hb as (tb & Hdb & Htb).
    apply split_observation in Hta. destruct Hta as (_ & xa & Hxa & Hlt).
    apply split_outcome in Htb. destruct Htb as (Hin & xb & Hxb & Hge).
    rewrite Hda in Hxa. inversion Hxa; subst xa.
    rewrite Hdb in Hxb. inversion Hxb; subst xb.
    exists tb, b. split; [assumption|]. split; [assumption | lia].
  - intros (t & x & Hin & Hd & Hge & Hlt).
    assert (Hobs : In (Some x) (map invoice_date (fst windows))).
    { rewrite <- Hd. apply in_map. apply split_observation. eauto. }
    assert (Hout : In (Some x) (map invoice_date (snd windows))).
    { rewrite <- Hd. apply in_map. apply split_outcome. eauto. }
    pose proof (ts_max_spec (map invoice_date (fst windows))) as Hmax.
    pose proof (ts_min_spec (map invoice_date (snd windows))) as Hmin.
    destruct (ts_max (map invoice_date (fst windows))) as [a|];
      [|exfalso; exact (Hmax x Hobs)].
    destruct (ts_min (map invoice_date (snd windows))) as [b|];
      [|exfalso; exact (Hmin x Hout)].
    exists a, b. split; [assumption|]. split; [assumption|].
    destruct Hmax as [_ Hmax]. destruct Hmin as [_ Hmin].
    specialize (Hmax x Hobs). specialize (Hmin x Hout). lia.
Qed.

(** X3.  On the windows the splitter returns, [check_data_leakage] raises
    exactly when some dated transaction lies in both windows, that is when
    [outcome_start <= timestamp < observation_end] for one of them. *)
Theorem leakage_raised_iff_shared_transaction df observation_end outcome_start :
  let windows := split_by_time_window df observation_end outcome_start in
  check_data_leakage (fst windows) (snd windows)
    = inl (ValueError "Data leakage detected")
  <-> exists t, In t (fst windows) /\ In t (snd windows).
Proof.
  intros windows.
  assert (Hiff : check_data_leakage (fst windows) (snd windows)
                   = inl (ValueError "Data leakage detected")
                 <-> exists e, check_data_leakage (fst windows) (snd windows)
                               = inl e).
  { split; [eauto|]. intros [e He]. unfold check_data_leakage in *.
    destruct (ts_geb _ _); [reflexivity | discriminate]. }
  rewrite Hiff. unfold windows. rewrite leakage_iff_overlap. split.
  - intros (t & x & Hin & Hd & Hge & Hlt). exists t. split.
    + apply split_observation. eauto.
    + apply split_outcome. eauto.
  - intros (t & Hobs & Hout).
    apply split_observation in Hobs. destruct Hobs as (Hin & x & Hd & Hlt).
    apply split_outcome in Hout. destruct Hout as (_ & y & Hd' & Hge).
    rewrite Hd in Hd'. inversion Hd'; subst y.
    exists t, x. auto.
Qed.

(** X4.  With [observation_end <= outcome_start] no transaction is in both
    windows and [check_data_leakage] never raises, whatever the data. *)
Theorem ordered_boundaries_never_leak df observation_end outcome_start :
  observation_end <= outcome_start ->
  let windows := split_by_time_window df observation_end outcome_start in
  (forall t, ~ (In t (fst windows) /\ In t (snd windows)))
  /\ check_data_leakage (fst windows) (snd windows)
     = inr [log_info "No temporal data leakage detected"].
Proof.
  intros Hle windows.
  assert (Hdisj : forall t, ~ (In t (fst windows) /\ In t (snd windows))).
  { intros t [Hobs Hout].
    apply split_observation in Hobs. destruct Hobs as (_ & x & Hd & Hlt).
    apply split_outcome in Hout. destruct Hout as (_ & y & Hd' & Hge).
    rewrite Hd in Hd'. inversion Hd'; subst y. lia. }
  split; [exact Hdisj|].
  destruct (check_data_leakage (fst windows) (snd windows)) as [e|l] eqn:Hc.
  - exfalso.
    assert (Hex : exists e, check_data_leakage (fst windows) (snd windows)
                            = inl e) by eauto.
    apply leakage_iff_overlap in Hex.
    destruct Hex as (t & x & _ & _ & Hge & Hlt). lia.
  - unfold check_data_leakage in Hc. destruct (ts_geb _ _); [discriminate|].
    congruence.
Qed.

End SplitterProperties.

(** * Further properties of the cohort and of the feature table *)

Lemma sorted_unique_ext (l l' : list Z) :
  StronglySorted Z.lt l -> StronglySorted Z.lt l' ->
  (forall x, In x l <-> In x l') -> l = l'.
Proof.
  intros Hs. revert l'. induction Hs as [|x l Hs IH Hx]; intros l' Hs' Hext.
  - destruct l' as [|y l']; [reflexivity|].
    exfalso. apply (proj2 (Hext y)). left. reflexivity.
  - destruct Hs' as [|y l' Hs' Hy].
    + exfalso. apply (proj1 (Hext x)). left. reflexivity.
    + rewrite Forall_forall in Hx, Hy.
      assert (Hxy : x = y).
      { destruct (proj1 (Hext x) (or_introl eq_refl)) as [->|Hin];
          [reflexivity|].
        destruct (proj2 (Hext y) (or_introl eq_refl)) as [->|Hin'];
          [reflexivity|].
        specialize (Hx _ Hin'). specialize (Hy _ Hin). lia. }
      subst y. f_equal. apply IH; [assumption|].
      intros z. split; intros Hz.
      * destruct (proj1 (Hext z) (or_intror Hz)) as [<-|Hin]; [|assumption].
        specialize (Hx _ Hz). lia.
      * destruct (proj2 (Hext z) (or_intror Hz)) as [<-|Hin]; [|assumption].
        specialize (Hy _ Hz). lia.
Qed.

Lemma sorted_filter (p : Z -> bool) (l : list Z) :
  StronglySorted Z.lt l -> StronglySorted Z.lt (filter p l).
Proof.
  induction 1 as [|x l Hs IH Hx]; cbn [filter]; [constructor|].
  destruct (p x); [|assumption].
  constructor; [assumption|].
  rewrite Forall_forall in *. intros y Hy. apply filter_In in Hy.
  apply Hx. tauto.
Qed.

Lemma map_fst_filter_tabulate {A} (p : Z * A -> bool) (f : Z -> A) K :
  map fst (filter p (tabulate f K)) = filter (fun c => p (c, f c)) K.
Proof.
  induction K as [|x K IH]; [reflexivity|].
  rewrite tabulate_cons. cbn [filter].
  destruct (p (x, f x)); cbn [map fst]; rewrite IH; reflexivity.
Qed.

Lemma filter_length_le {A} (p : A -> bool) (l : list A) :
  (List.length (filter p l) <= List.length l)%nat.
Proof.
  induction l as [|x l IH]; cbn [filter]; [lia|].
  destruct (p x); cbn [List.length]; lia.
Qed.

(** Inclusion and exclusion on three masks of one table. *)
Lemma count_pass_fail {A} (pass fail1 fail2 : A -> bool) (l : list A) :
  (forall x, In x l -> pass x = negb (fail1 x) && negb (fail2 x)) ->
  (List.length (filter pass l) + List.length (filter fail1 l)
   + List.length (filter fail2 l)
   = List.length l
     + List.length (filter (fun x => fail1 x && fail2 x) l))%nat.
Proof.
  induction l as [|x l IH]; intros Hpass; [reflexivity|].
  assert (IH' := IH (fun y Hy => Hpass y (or_intror Hy))).
  specialize (Hpass x (or_introl eq_refl)).
  cbn [filter]. rewrite Hpass.
  destruct (fail1 x), (fail2 x); cbn [negb andb List.length]; lia.
Qed.

Lemma nunique_le_length (l : list string) :
  nunique l <= Z.of_nat (List.length l).
Proof.
  unfold nunique. apply inj_le.
  induction l as [|x l IH]; [reflexivity|].
  cbn [nodup]. destruct (in_dec string_dec x l); cbn [List.length]; lia.
Qed.

Lemma ts_min_ext (l l' : list Timestamp) :
  (forall x, In x l <-> In x l') -> ts_min l = ts_min l'.
Proof.
  intros Hext.
  pose proof (ts_min_spec l) as Hl. pose proof (ts_min_spec l') as Hl'.
  destruct (ts_min l) as [m|]; destruct (ts_min l') as [m'|].
  - f_equal. destruct Hl as [Hin Hmin]. destruct Hl' as [Hin' Hmin'].
    apply Hext in Hin. apply Hext in Hin'.
    specialize (Hmin _ Hin'). specialize (Hmin' _ Hin). lia.
  - destruct Hl as [Hin _]. exfalso. apply (Hl' m). now apply Hext.
  - destruct Hl' as [Hin _]. exfalso. apply (Hl m'). now apply Hext.
  - reflexivity.
Qed.

Lemma nunique_ext (l l' : list string) :
  (forall x, In x l <-> In x l') -> nunique l = nunique l'.
Proof.
  intros Hext. apply Z.le_antisymm; apply nunique_incl; intros x Hx;
    now apply Hext.
Qed.

Lemma bool_ext (b b' : bool) : (b = true <-> b' = true) -> b = b'.
Proof. destruct b, b'; intuition congruence. Qed.

Lemma days_split (x y : Z) : days (x + y) - 1 <= days x + days y.
Proof.
  unfold days. pose proof DAY_pos as HD.
  pose proof (Z.div_mod x DAY ltac:(lia)) as Hx.
  pose proof (Z.div_mod y DAY ltac:(lia)) as Hy.
  pose proof (Z.mod_pos_bound x DAY HD) as Hrx.
  pose proof (Z.mod_pos_bound y DAY HD) as Hry.
  assert (Hlt : (x + y) / DAY < x / DAY + y / DAY + 2).
  { apply Z.div_lt_upper_bound; [assumption|]. nia. }
  lia.
Qed.

Section CohortProperties.

Context {R : Type} `{Float64 R}.

Implicit Types (df observation_df outcome_df : @DataFrame R) (c : Z).

Lemma eligible_as_filter cfg observation_df :
  eligible_customers cfg observation_df
  = filter (fun c =>
      ts_leb (ts_min (map invoice_date (rows_of c observation_df)))
             (Some (min_acquisition_date cfg))
      && (MIN_FREQUENCY cfg
          <=? nunique (map invoice (rows_of c observation_df))))
      (group_keys (map customer_id observation_df)).
Proof.
  unfold eligible_customers, customer_stats, groupby.
  rewrite map_fst_filter_tabulate. reflexivity.
Qed.

Lemma eligible_sorted cfg observation_df :
  StronglySorted Z.lt (eligible_customers cfg observation_df).
Proof.
  rewrite eligible_as_filter. apply sorted_filter, group_keys_sorted.
Qed.

Lemma feature_keys cfg observation_df outcome_df :
  map fst (features_of cfg observation_df outcome_df)
  = eligible_customers cfg observation_df.
Proof.
  rewrite features_of_rows. cbv zeta. rewrite tabulate_keys.
  apply sorted_unique_ext.
  - apply group_keys_sorted.
  - apply eligible_sorted.
  - intros c. apply restricted_keys.
Qed.

(** X5.  On the observation window the splitter returns, the counts of the
    cohort report add up: the customers filtered out are those failing
    tenure plus those failing frequency minus those failing both, and
    their number lies between 0 and the number of customers. *)
Theorem cohort_counts_add_up cfg df :
  let observation_df :=
    fst (split_by_time_window df (OBS_END cfg) (OUTCOME_START cfg)) in
  filtered_out cfg observation_df
  = n_tenure_fail cfg observation_df + n_frequency_fail cfg observation_df
    - n_both_fail cfg observation_df
  /\ 0 <= filtered_out cfg observation_df <= n_total observation_df
  /\ n_both_fail cfg observation_df <= n_tenure_fail cfg observation_df
  /\ n_both_fail cfg observation_df <= n_frequency_fail cfg observation_df.
Proof.
  intros observation_df.
  unfold filtered_out, n_total, n_eligible, n_tenure_fail, n_frequency_fail,
    n_both_fail, count_true, eligible_customers.
  rewrite length_map.
  set (stats := customer_stats observation_df).
  set (pass := fun cs : Z * CustomerStats =>
         ts_leb (first_purchase (snd cs)) (Some (min_acquisition_date cfg))
         && (MIN_FREQUENCY cfg <=? n_transactions (snd cs))).
  assert (Hpass : forall cs, In cs stats ->
            pass cs = negb (tenure_fails cfg cs)
                      && negb (frequency_fails cfg cs)).
  { intros [c st] Hin. unfold stats, customer_stats, groupby in Hin.
    apply tabulate_In in Hin. destruct Hin as [Hc ->].
    unfold pass, tenure_fails, frequency_fails. cbn [snd first_purchase n_transactions].
    assert (Hd : exists a m,
              ts_min (map invoice_date (rows_of c observation_df)) = Some a
              /\ ts_max (map invoice_date (rows_of c observation_df)) = Some m
              /\ a <= m /\ m < OBS_END cfg).
    { apply dated_column_min_max.
      - intros Hnil. apply map_eq_nil in Hnil. revert Hnil.
        now apply key_has_rows.
      - intros x Hx. apply in_map_iff in Hx. destruct Hx as (t & <- & Ht).
        apply rows_of_In in Ht. destruct Ht as [Ht _].
        apply split_observation in Ht. tauto. }
    destruct Hd as (a & m & -> & _).
    unfold ts_leb, ts_gtb. rewrite !Z.leb_antisym. reflexivity. }
  pose proof (count_pass_fail pass (tenure_fails cfg) (frequency_fails cfg)
                              stats Hpass) as Hcount.
  pose proof (filter_length_le pass stats).
  assert (Hb1 : (List.length (filter (fun cs => tenure_fails cfg cs
                                               && frequency_fails cfg cs) stats)
                 <= List.length (filter (tenure_fails cfg) stats))%nat).
  { clear. induction stats as [|x l IH]; cbn [filter]; [lia|].
    destruct (tenure_fails cfg x), (frequency_fails cfg x);
      cbn [andb List.length]; lia. }
  assert (Hb2 : (List.length (filter (fun cs => tenure_fails cfg cs
                                               && frequency_fails cfg cs) stats)
                 <= List.length (filter (frequency_fails cfg) stats))%nat).
  { clear. induction stats as [|x l IH]; cbn [filter]; [lia|].
    destruct (tenure_fails cfg x), (frequency_fails cfg x);
      cbn [andb List.length]; lia. }
  fold pass. lia.
Qed.

(** X6.  The feature table has exactly one row per eligible customer, in
    strictly ascending order of customer identifier: its key column is the
    list of eligible customers, and no identifier occurs twice. *)
Theorem feature_table_keys cfg observation_df outcome_df :
  map fst (features_of cfg observation_df outcome_df)
  = eligible_customers cfg observation_df
  /\ StronglySorted Z.lt (map fst (features_of cfg observation_df outcome_df))
  /\ NoDup (map fst (features_of cfg observation_df outcome_df))
  /\ List.length (features_of cfg observation_df outcome_df)
     = List.length (eligible_customers cfg observation_df).
Proof.
  pose proof (feature_keys cfg observation_df outcome_df) as Hk.
  split; [exact Hk|]. rewrite Hk.
  split; [apply eligible_sorted|]. split; [apply eligible_NoDup|].
  rewrite <- Hk. symmetry. apply length_map.
Qed.

(** X7.  In the feature table built from the split windows no cell is
    missing: every optional column holds a value in every row. *)
Theorem feature_table_has_no_missing_cell cfg df c f :
  let windows := split_by_time_window df (OBS_END cfg) (OUTCOME_START cfg) in
  In (c, f) (features_of cfg (fst windows) (snd windows)) ->
  recency f <> None /\ unique_products f <> None
  /\ first_purchase_date f <> None /\ last_purchase_date f <> None
  /\ days_as_customer f <> None /\ purchase_velocity f <> None
  /\ avg_days_between_purchases f <> None
  /\ n_return_invoices f <> None /\ return_amount_ f <> None
  /\ return_rate f <> None /\ has_returns f <> None
  /\ churned f <> None.
Proof.
  intros windows Hin. apply feature_rows_iff in Hin.
  destruct Hin as [Hel ->].
  destruct (restricted_rows_dated cfg df c Hel) as (a & m & Ha & Hm & _).
  fold windows in Ha, Hm.
  apply isin_In in Hel.
  unfold feature_row.
  cbn [recency unique_products first_purchase_date last_purchase_date
       days_as_customer purchase_velocity avg_days_between_purchases
       n_return_invoices return_amount_ return_rate has_returns churned].
  rewrite Ha, Hm, Hel. cbn [span_days option_map].
  repeat split; discriminate.
Qed.

(** X8.  In every row built from the split windows the first purchase is
    at least [MIN_TENURE_DAYS] days before [OBS_END], the last purchase is
    not before the first and is before [OBS_END], and
    [recency + days_as_customer] is at least [MIN_TENURE_DAYS - 1]. *)
Theorem tenure_of_feature_rows cfg df c f :
  let windows := split_by_time_window df (OBS_END cfg) (OUTCOME_START cfg) in
  In (c, f) (features_of cfg (fst windows) (snd windows)) ->
  exists first last r d,
    first_purchase_date f = Some first
    /\ last_purchase_date f = Some last
    /\ recency f = Some r
    /\ days_as_customer f = Some d
    /\ first <= OBS_END cfg - MIN_TENURE_DAYS cfg * DAY
    /\ first <= last < OBS_END cfg
    /\ MIN_TENURE_DAYS cfg <= days (OBS_END cfg - first)
    /\ MIN_TENURE_DAYS cfg - 1 <= r + d.
Proof.
  intros windows Hin. apply feature_rows_iff in Hin.
  destruct Hin as [Hel ->].
  destruct (restricted_rows_dated cfg df c Hel) as (a & m & Ha & Hm & Hle & Hlt).
  fold windows in Ha, Hm.
  pose proof (proj1 (eligible_iff cfg (fst windows) c) Hel) as [Hten _].
  rewrite <- (rows_of_restrict c (fst windows) _ Hel) in Hten.
  rewrite Ha in Hten. cbn [ts_leb] in Hten. apply Z.leb_le in Hten.
  unfold min_acquisition_date in Hten.
  exists a, m, (days (OBS_END cfg - m)), (days (m - a)).
  unfold feature_row.
  cbn [first_purchase_date last_purchase_date recency days_as_customer].
  rewrite Ha, Hm. cbn [span_days option_map].
  do 4 (split; [reflexivity|]).
  split; [assumption|]. split; [lia|].
  assert (Hfloor : MIN_TENURE_DAYS cfg <= days (OBS_END cfg - a)).
  { unfold days. apply Z.div_le_lower_bound; [apply DAY_pos | lia]. }
  split; [assumption|].
  pose proof (days_split (OBS_END cfg - m) (m - a)) as Hs.
  replace (OBS_END cfg - m + (m - a)) with (OBS_END cfg - a) in Hs by lia.
  lia.
Qed.

(** X9.  In every row of the feature table, [frequency] is at least
    [MIN_FREQUENCY], at least 1 and at most the number of the customer's
    observation-window lines, and [unique_products] lies between 1 and
    that number too. *)
Theorem frequency_of_feature_rows cfg observation_df outcome_df c f :
  In (c, f) (features_of cfg observation_df outcome_df) ->
  let lines := Z.of_nat (List.length (rows_of c observation_df)) in
  MIN_FREQUENCY cfg <= frequency f
  /\ 1 <= frequency f <= lines
  /\ exists u, unique_products f = Some u /\ 1 <= u <= lines.
Proof.
  intros Hin lines. apply feature_rows_iff in Hin.
  destruct Hin as [Hel ->].
  pose proof (proj1 (eligible_iff cfg observation_df c) Hel) as [_ Hfreq].
  pose proof (eligible_rows_nonempty cfg observation_df c Hel) as Hne.
  unfold feature_row. cbn [frequency unique_products].
  rewrite (rows_of_restrict c observation_df _ Hel).
  set (g := rows_of c observation_df) in *.
  assert (Hlen : forall A (h : Transaction -> A),
             Z.of_nat (List.length (map h g)) = lines)
    by (intros; now rewrite length_map).
  split; [assumption|]. split.
  - split.
    + apply nunique_pos. intros Hnil. apply map_eq_nil in Hnil. auto.
    + rewrite <- (Hlen _ invoice). apply nunique_le_length.
  - eexists. split; [reflexivity|]. split.
    + apply nunique_pos. intros Hnil. apply map_eq_nil in Hnil. auto.
    + rewrite <- (Hlen _ stock_code). apply nunique_le_length.
Qed.

(** X10.  [has_returns] is true in a row exactly when the customer has an
    observation-window line flagged [is_return]; otherwise it is false and
    [n_return_invoices] is 0. *)
Theorem has_returns_iff_return_line cfg observation_df outcome_df c f :
  In (c, f) (features_of cfg observation_df outcome_df) ->
  (has_returns f = Some true
   <-> exists t, In t observation_df /\ customer_id t = c
                 /\ is_return t = true)
  /\ (has_returns f = Some false
      <-> ~ exists t, In t observation_df /\ customer_id t = c
                      /\ is_return t = true)
  /\ (has_returns f = Some false <-> n_return_invoices f = Some 0).
Proof.
  intros Hin. apply feature_rows_iff in Hin. destruct Hin as [Hel ->].
  unfold feature_row. cbn [has_returns n_return_invoices].
  rewrite (rows_of_restrict c observation_df _ Hel).
  destruct (filter is_return (rows_of c observation_df)) as [|t ret] eqn:Hret.
  - assert (Hnone : ~ exists t, In t observation_df /\ customer_id t = c
                                /\ is_return t = true).
    { intros (t & Ht & Hc & Hr).
      assert (Hf : In t (filter is_return (rows_of c observation_df))).
      { apply filter_In. split; [|assumption]. apply rows_of_In. auto. }
      rewrite Hret in Hf. destruct Hf. }
    cbn. split; [split; [discriminate | tauto]|].
    split; [tauto|]. tauto.
  - assert (Hsome : exists t, In t observation_df /\ customer_id t = c
                              /\ is_return t = true).
    { exists t.
      assert (Hf : In t (filter is_return (rows_of c observation_df)))
        by (rewrite Hret; left; reflexivity).
      apply filter_In in Hf. destruct Hf as [Hf Hr].
      apply rows_of_In in Hf. tauto. }
    assert (Hn : 1 <= nunique (map invoice (t :: ret)))
      by (apply nunique_pos; discriminate).
    cbv iota beta. set (n := nunique (map invoice (t :: ret))) in *.
    assert (Hpos : (0 <? n) = true) by (apply Z.ltb_lt; lia).
    rewrite Hpos.
    split; [tauto|]. split; [split; [discriminate | tauto]|].
    split; [discriminate|]. intros Heq. injection Heq as Heq. lia.
Qed.

(** X11.  The feature columns do not depend on the outcome window: two
    outcome windows give the same table once the label is set aside. *)
Theorem features_independent_of_outcome cfg observation_df outcome_df
    outcome_df' :
  map (fun row => (fst row, drop_label (snd row)))
      (features_of cfg observation_df outcome_df)
  = map (fun row => (fst row, drop_label (snd row)))
        (features_of cfg observation_df outcome_df').
Proof.
  rewrite !features_of_rows. cbv zeta.
  rewrite !map_tabulate. apply tabulate_ext_in. intros c _. reflexivity.
Qed.

Lemma rows_of_ext df df' c :
  (forall t, In t df <-> In t df') ->
  forall t, In t (rows_of c df) <-> In t (rows_of c df').
Proof.
  intros Hext t. rewrite !rows_of_In, Hext. reflexivity.
Qed.

Lemma map_In_ext {A B} (h : A -> B) (l l' : list A) :
  (forall t, In t l <-> In t l') ->
  forall x, In x (map h l) <-> In x (map h l').
Proof.
  intros Hext x. rewrite !in_map_iff.
  split; intros (t & Hx & Ht); exists t; (split; [assumption|]);
    now apply Hext.
Qed.

Lemma eligible_ext cfg df df' :
  (forall t, In t df <-> In t df') ->
  eligible_customers cfg df = eligible_customers cfg df'.
Proof.
  intros Hext. rewrite !eligible_as_filter.
  assert (HK : group_keys (map customer_id df)
               = group_keys (map customer_id df')).
  { apply sorted_unique_ext; try apply group_keys_sorted.
    intros c. rewrite !group_keys_In. now apply map_In_ext. }
  rewrite HK. apply filter_ext. intros c.
  rewrite (ts_min_ext (map invoice_date (rows_of c df))
                      (map invoice_date (rows_of c df')))
    by (apply map_In_ext, rows_of_ext; assumption).
  rewrite (nunique_ext (map invoice (rows_of c df))
                       (map invoice (rows_of c df')))
    by (apply map_In_ext, rows_of_ext; assumption).
  reflexivity.
Qed.

(** X12.  The cohort and the labels depend only on which lines the input
    holds: two frames with the same set of rows, in any order and with any
    repetition, give the same eligible customers and the same churn
    labels. *)
Theorem cohort_and_labels_ignore_order cfg df df' :
  (forall t, In t df <-> In t df') ->
  let windows := split_by_time_window df (OBS_END cfg) (OUTCOME_START cfg) in
  let windows' := split_by_time_window df' (OBS_END cfg) (OUTCOME_START cfg) in
  eligible_customers cfg (fst windows) = eligible_customers cfg (fst windows')
  /\ churn_labels (eligible_customers cfg (fst windows)) (snd windows)
     = churn_labels (eligible_customers cfg (fst windows')) (snd windows').
Proof.
  intros Hext windows windows'.
  assert (Hobs : forall t, In t (fst windows) <-> In t (fst windows')).
  { intros t. unfold windows, windows'. rewrite !split_observation, Hext.
    reflexivity. }
  assert (Hout : forall t, In t (snd windows) <-> In t (snd windows')).
  { intros t. unfold windows, windows'. rewrite !split_outcome, Hext.
    reflexivity. }
  pose proof (eligible_ext cfg _ _ Hobs) as HE.
  split; [exact HE|]. rewrite <- HE.
  unfold churn_labels. apply tabulate_ext_in. intros c _.
  rewrite (bool_ext (isin c (purchase_customers (snd windows)))
                    (isin c (purchase_customers (snd windows')))).
  - reflexivity.
  - rewrite !isin_In, !purchase_customers_In.
    split; intros (t & Ht & Hrest); exists t; (split; [|assumption]);
      now apply Hout.
Qed.

End CohortProperties.

(** * Further properties of a run of the script *)

Section RunProperties.

Context {R : Type} `{Float64 R}.

Implicit Types (df : @DataFrame R).

Lemma customer_stats_empty_iff (observation_df : @DataFrame R) :
  customer_stats observation_df = [] <-> observation_df = [].
Proof.
  unfold customer_stats, groupby, tabulate. split.
  - intros Hnil. apply map_eq_nil in Hnil.
    destruct observation_df as [|t l]; [reflexivity|]. exfalso.
    assert (Hin : In (customer_id t) (group_keys (map customer_id (t :: l))))
      by (apply group_keys_In; left; reflexivity).
    rewrite Hnil in Hin. destruct Hin.
  - intros ->. reflexivity.
Qed.

Lemma features_empty_iff cfg (observation_df outcome_df : @DataFrame R) :
  features_of cfg observation_df outcome_df = []
  <-> eligible_customers cfg observation_df = [].
Proof.
  rewrite <- (feature_keys cfg observation_df outcome_df). split.
  - intros ->. reflexivity.
  - apply map_eq_nil.
Qed.

Lemma length_eqb_0 {A} (l : list A) :
  (List.length l =? 0)%nat = true <-> l = [].
Proof. destruct l; cbn; split; congruence. Qed.

(** X13.  A run finishes exactly when no transaction lies in both windows
    and at least one customer is eligible; it then leaves the feature
    table in the output file.  In every other case it raises and the
    output file keeps what it held before. *)
Theorem run_finishes_iff cfg df file :
  let windows := split_by_time_window df (OBS_END cfg) (OUTCOME_START cfg) in
  let run := feature_engineering cfg df file in
  ((exists printed, fst run = Finished printed)
   <-> (forall t, ~ (In t (fst windows) /\ In t (snd windows)))
       /\ eligible_customers cfg (fst windows) <> [])
  /\ (forall printed,
        fst run = Finished printed ->
        snd run = Some (features_of cfg (fst windows) (snd windows)))
  /\ (forall printed e, fst run = Raised printed e -> snd run = file).
Proof.
  intros windows run.
  pose proof (leakage_iff_overlap df (OBS_END cfg) (OUTCOME_START cfg)) as Hleak.
  cbv zeta in Hleak. fold windows in Hleak.
  assert (Hshared : (exists t, In t (fst windows) /\ In t (snd windows))
                    <-> exists t x, In t df /\ invoice_date t = Some x
                          /\ OUTCOME_START cfg <= x < OBS_END cfg).
  { split.
    - intros (t & Hobs & Hout).
      apply split_observation in Hobs. destruct Hobs as (Hin & x & Hd & Hlt).
      apply split_outcome in Hout. destruct Hout as (_ & y & Hd' & Hge).
      rewrite Hd in Hd'. inversion Hd'; subst y. exists t, x. auto.
    - intros (t & x & Hin & Hd & Hge & Hlt). exists t. split.
      + apply split_observation. eauto.
      + apply split_outcome. eauto. }
  unfold run, feature_engineering, validate_report_export,
    generate_feature_report.
  fold windows.
  destruct (check_data_leakage (fst windows) (snd windows)) as [e|ok] eqn:Hc.
  { cbn [fst snd]. split; [|split; [intros ? Hf; discriminate | reflexivity]].
    split; [intros [p Hp]; discriminate|].
    intros [Hdisj _]. exfalso.
    assert (Hex : exists e0, @inl Exception (list LogLine) e = inl e0) by eauto.
    apply Hleak in Hex. apply Hshared in Hex.
    destruct Hex as [t Ht]. exact (Hdisj t Ht). }
  assert (Hdisj : forall t, ~ (In t (fst windows) /\ In t (snd windows))).
  { intros t Ht.
    assert (Hex : exists t, In t (fst windows) /\ In t (snd windows)) by eauto.
    apply Hshared in Hex. apply Hleak in Hex. destruct Hex as [e He].
    discriminate. }
  destruct (List.length (customer_stats (fst windows)) =? 0)%nat eqn:Hn.
  { cbn [fst snd]. split; [|split; [intros ? Hf; discriminate | reflexivity]].
    split; [intros [p Hp]; discriminate|].
    intros [_ Hel]. exfalso. apply Hel.
    apply length_eqb_0, customer_stats_empty_iff in Hn.
    rewrite Hn. reflexivity. }
  destruct (List.length (features_of cfg (fst windows) (snd windows)) =? 0)%nat
    eqn:Hf.
  { cbn [fst snd]. split; [|split; [intros ? Hx; discriminate | reflexivity]].
    split; [intros [p Hp]; discriminate|].
    intros [_ Hel]. exfalso. apply Hel.
    apply length_eqb_0, features_empty_iff in Hf. assumption. }
  cbn [fst snd]. split; [|split; [reflexivity | intros ? ? Hx; discriminate]].
  split; [|eauto]. intros _. split; [assumption|].
  intros Hel. apply features_empty_iff with (outcome_df := snd windows) in Hel.
  rewrite Hel in Hf. discriminate.
Qed.


(** X15.  When some transaction is dated at or after [OUTCOME_START] and
    before [OBS_END], the run raises the leakage [ValueError] before any
    feature is computed, and the output file is not touched. *)
Theorem overlapping_transaction_aborts_run cfg df file :
  (exists t x, In t df /\ invoice_date t = Some x
               /\ OUTCOME_START cfg <= x < OBS_END cfg) ->
  exists printed,
    feature_engineering cfg df file
    = (Raised printed (ValueError "Data leakage detected"), file)
    /\ forall line, In line printed -> fst line <> ERROR.
Proof.
  intros Hshared.
  apply (leakage_iff_overlap df (OBS_END cfg) (OUTCOME_START cfg)) in Hshared.
  destruct Hshared as [e He].
  unfold feature_engineering. rewrite He.
  unfold check_data_leakage in He.
  destruct (ts_geb _ _); [|discriminate]. injection He as <-.
  eexists. split; [reflexivity|].
  intros line Hin. repeat (apply in_app_or in Hin; destruct Hin as [Hin|Hin]).
  - cbn in Hin. repeat (destruct Hin as [<-|Hin]; [discriminate|]).
    destruct Hin.
  - unfold validate_date_column in Hin.
    destruct (existsb _ df); cbn in Hin;
      repeat (destruct Hin as [<-|Hin]; [discriminate|]); destruct Hin.
  - unfold validate_no_missing_values in Hin.
    destruct (existsb _ df); cbn in Hin;
      repeat (destruct Hin as [<-|Hin]; [discriminate|]); destruct Hin.
  - cbn in Hin. repeat (destruct Hin as [<-|Hin]; [discriminate|]).
    destruct Hin.
Qed.

End RunProperties.

(** * Further properties in exact arithmetic *)







Local Open Scope Q_scope.

Lemma fsum_Q_le_gross (l : list Q) : fsum l <= fsum (filter f_gt0 l).
Proof.
  induction l as [|x l IH]; [apply Qle_refl|].
  cbn [filter]. rewrite fsum_Q_cons.
  destruct (f_gt0 x) eqn:Hx.
  - rewrite fsum_Q_cons. apply Qplus_le_compat; [apply Qle_refl | exact IH].
  - assert (Hle : x <= 0).
    { apply Qnot_lt_le. intros Hlt. apply f_gt0_Q in Hlt. congruence. }
    rewrite <- (Qplus_0_l (fsum (filter f_gt0 l))).
    apply Qplus_le_compat; assumption.
Qed.


(** X16.  On a feature table the script builds from the split windows,
    the data quality checks print no error and no warning: the only line
    they can print is the note on customers with a negative
    [monetary_net]. *)
Theorem quality_checks_on_script_tables cfg (df : @DataFrame Q) :
  let windows := split_by_time_window df (OBS_END cfg) (OUTCOME_START cfg) in
  let features := features_of cfg (fst windows) (snd windows) in
  quality_checks features
  = if negative_monetary_net features
    then [log_info "customers with negative net monetary (serial returners)"]
    else [].
Proof.
  intros windows features.
  pose proof (script_tables_pass_fatal_checks cfg df) as Hfatal.
  cbv zeta in Hfatal. fold windows in Hfatal. fold features in Hfatal.
  unfold fatal_check_fails in Hfatal.
  apply orb_false_elim in Hfatal. destruct Hfatal as [Hfatal Hgross].
  apply orb_false_elim in Hfatal. destruct Hfatal as [Hfatal Hdup].
  apply orb_false_elim in Hfatal. destruct Hfatal as [Hrec Hlab].
  assert (Hzero : zero_frequency features = false).
  { apply existsb_false_forall. intros [c f] Hin.
    apply feature_rows_iff in Hin. destruct Hin as [Hel ->].
    cbn [snd feature_row frequency]. apply Z.eqb_neq.
    rewrite (rows_of_restrict c (fst windows) _ Hel).
    pose proof (eligible_rows_nonempty cfg (fst windows) c Hel) as Hne.
    assert (1 <= nunique (map invoice (rows_of c (fst windows))))%Z.
    { apply nunique_pos. intros Hnil. apply map_eq_nil in Hnil. auto. }
    lia. }
  unfold quality_checks. rewrite Hrec, Hzero, Hlab, Hdup, Hgross.
  reflexivity.
Qed.

(** X17.  In every row of the feature table [monetary_net] is at most
    [monetary_gross] and [return_amount] is at least 0. *)
Theorem net_at_most_gross cfg (observation_df outcome_df : @DataFrame Q) c f :
  In (c, f) (features_of cfg observation_df outcome_df) ->
  monetary_net f <= monetary_gross f
  /\ exists ra, return_amount_ f = Some ra /\ 0 <= ra.
Proof.
  intros Hin. apply feature_rows_iff in Hin. destruct Hin as [_ ->].
  unfold feature_row. cbn [monetary_net monetary_gross return_amount_].
  split; [apply fsum_Q_le_gross|].
  eexists. split; [reflexivity|].
  destruct (filter is_return _); [apply Qle_refl | apply Qabs_nonneg].
Qed.


(** * The further properties on the example data *)

Local Open Scope Z_scope.

Lemma retail_row_7 :
  In (7, feature_row cfg
           (restrict (fst retail_windows)
                     (eligible_customers cfg (fst retail_windows)))
           (snd retail_windows)
           (eligible_customers cfg (fst retail_windows)) 7)
     (features_of cfg (fst retail_windows) (snd retail_windows)).
Proof.
  apply feature_rows_iff. split; [|reflexivity].
  rewrite retail_eligible. left. reflexivity.
Qed.

Lemma retail_row_8 :
  In (8, feature_row cfg
           (restrict (fst retail_windows)
                     (eligible_customers cfg (fst retail_windows)))
           (snd retail_windows)
           (eligible_customers cfg (fst retail_windows)) 8)
     (features_of cfg (fst retail_windows) (snd retail_windows)).
Proof.
  apply feature_rows_iff. split; [|reflexivity].
  rewrite retail_eligible. right. left. reflexivity.
Qed.

Lemma ordered_boundaries_never_leak_witness :
  OBS_END cfg <= OUTCOME_START cfg
  /\ check_data_leakage (fst retail_windows) (snd retail_windows)
     = inr [log_info "No temporal data leakage detected"].
Proof.
  assert (Hle : OBS_END cfg <= OUTCOME_START cfg) by (vm_compute; discriminate).
  split; [exact Hle|].
  exact (proj2 (ordered_boundaries_never_leak retail _ _ Hle)).
Defined.

Lemma feature_table_has_no_missing_cell_witness :
  exists f,
    In (7, f) (features_of cfg (fst retail_windows) (snd retail_windows))
    /\ unique_products f <> None /\ churned f <> None.
Proof.
  pose proof retail_row_7 as Hin.
  destruct (feature_table_has_no_missing_cell cfg retail 7 _ Hin)
    as (_ & Hu & _ & _ & _ & _ & _ & _ & _ & _ & _ & Hc).
  eexists. split; [exact Hin|]. split; assumption.
Defined.

Lemma tenure_of_feature_rows_witness :
  exists f r d,
    In (7, f) (features_of cfg (fst retail_windows) (snd retail_windows))
    /\ recency f = Some r /\ days_as_customer f = Some d
    /\ MIN_TENURE_DAYS cfg - 1 <= r + d.
Proof.
  pose proof retail_row_7 as Hin.
  destruct (tenure_of_feature_rows cfg retail 7 _ Hin)
    as (a & m & r & d & _ & _ & Hr & Hd & _ & _ & _ & Hsum).
  eexists. exists r, d. split; [exact Hin|]. repeat split; assumption.
Defined.

Lemma frequency_of_feature_rows_witness :
  exists f,
    In (7, f) (features_of cfg (fst retail_windows) (snd retail_windows))
    /\ MIN_FREQUENCY cfg <= frequency f
    /\ frequency f
       <= Z.of_nat (List.length (rows_of 7 (fst retail_windows))).
Proof.
  pose proof retail_row_7 as Hin.
  destruct (frequency_of_feature_rows cfg _ _ 7 _ Hin) as (Hmin & [_ Hmax] & _).
  eexists. split; [exact Hin|]. split; assumption.
Defined.

(** Customer 8 has no line flagged [is_return] in the observation window. *)
Lemma has_returns_iff_return_line_witness :
  exists f,
    In (8, f) (features_of cfg (fst retail_windows) (snd retail_windows))
    /\ has_returns f = Some false /\ n_return_invoices f = Some 0.
Proof.
  pose proof retail_row_8 as Hin.
  destruct (has_returns_iff_return_line cfg _ _ 8 _ Hin) as (_ & Hfalse & Hzero).
  assert (Hhas : has_returns
                   (feature_row cfg
                      (restrict (fst retail_windows)
                                (eligible_customers cfg (fst retail_windows)))
                      (snd retail_windows)
                      (eligible_customers cfg (fst retail_windows)) 8)
                 = Some false).
  { apply Hfalse. intros (t & Ht & Hc & Hr). simpl in Ht.
    repeat (destruct Ht as [<-|Ht]; [discriminate|]). destruct Ht. }
  eexists. split; [exact Hin|]. split; [exact Hhas | apply Hzero, Hhas].
Defined.

Lemma cohort_and_labels_ignore_order_witness :
  (forall t, In t retail <-> In t retail_shuffled)
  /\ eligible_customers cfg
       (fst (split_by_time_window retail_shuffled (OBS_END cfg)
                                  (OUTCOME_START cfg)))
     = [7; 8].
Proof.
  assert (Hext : forall t, In t retail <-> In t retail_shuffled).
  { intros t. unfold retail_shuffled. rewrite in_app_iff, <- in_rev.
    split; [auto|]. intros [Hin|Hin]; [assumption|].
    simpl in Hin. destruct Hin as [<-|[]]. left. reflexivity. }
  split; [exact Hext|].
  rewrite <- (proj1 (cohort_and_labels_ignore_order cfg retail retail_shuffled
                                                    Hext)).
  exact retail_eligible.
Defined.


Lemma overlapping_transaction_aborts_run_witness :
  exists printed,
    feature_engineering cfg_overlap retail None
    = (Raised printed (ValueError "Data leakage detected"), None).
Proof.
  destruct (overlapping_transaction_aborts_run cfg_overlap retail None)
    as (printed & Hrun & _).
  { exists (line "539999" 9 1 1%Q 15114 1%Q), (15114 * DAY).
    split; [simpl; tauto|]. split; [reflexivity|].
    vm_compute. split; [discriminate | reflexivity]. }
  exists printed. exact Hrun.
Defined.

Local Open Scope Q_scope.

Lemma net_at_most_gross_witness :
  exists f,
    In (7%Z, f) (features_of cfg (fst retail_windows) (snd retail_windows))
    /\ monetary_net f <= monetary_gross f.
Proof.
  pose proof retail_row_7 as Hin.
  destruct (net_at_most_gross cfg _ _ 7%Z _ Hin) as [Hle _].
  eexists. split; [exact Hin | exact Hle].
Defined.


(** * Thresholds, the cohort filter applied twice, and the report *)

Local Open Scope Z_scope.

Lemma filter_all_true {A} (p : A -> bool) (l : list A) :
  (forall x, In x l -> p x = true) -> filter p l = l.
Proof.
  induction l as [|x l IH]; intros Hall; [reflexivity|].
  cbn [filter]. rewrite (Hall x (or_introl eq_refl)).
  f_equal. apply IH. intros y Hy. apply Hall. right. assumption.
Qed.

Section CohortFilterProperties.

Context {R : Type} `{Float64 R}.

Implicit Types (observation_df outcome_df : @DataFrame R) (c : Z).

(** X19.  Raising [MIN_TENURE_DAYS] or [MIN_FREQUENCY], with the same
    [OBS_END], can only remove customers from the eligible set. *)
Theorem stricter_thresholds_shrink_cohort cfg cfg' observation_df c :
  OBS_END cfg' = OBS_END cfg ->
  MIN_TENURE_DAYS cfg <= MIN_TENURE_DAYS cfg' ->
  MIN_FREQUENCY cfg <= MIN_FREQUENCY cfg' ->
  In c (eligible_customers cfg' observation_df) ->
  In c (eligible_customers cfg observation_df).
Proof.
  intros Hend Hten Hfreq Hel. apply eligible_iff in Hel.
  destruct Hel as [Ht Hf]. apply eligible_iff. split; [|lia].
  destruct (ts_min (map invoice_date (rows_of c observation_df))) as [a|];
    [|discriminate].
  cbn [ts_leb] in *. apply Z.leb_le in Ht. apply Z.leb_le.
  unfold min_acquisition_date in *. rewrite Hend in Ht.
  pose proof DAY_pos. nia.
Qed.

Lemma restrict_idempotent observation_df (E : list Z) :
  restrict (restrict observation_df E) E = restrict observation_df E.
Proof.
  unfold restrict. apply filter_filter_implied. auto.
Qed.

(** X20.  The cohort filter is idempotent: on the observation window
    already restricted to the eligible customers, the same customers are
    eligible and the same feature table is built. *)
Theorem cohort_filter_idempotent cfg observation_df outcome_df :
  let restricted :=
    restrict observation_df (eligible_customers cfg observation_df) in
  eligible_customers cfg restricted = eligible_customers cfg observation_df
  /\ features_of cfg restricted outcome_df
     = features_of cfg observation_df outcome_df.
Proof.
  intros restricted.
  assert (HE : eligible_customers cfg restricted
               = eligible_customers cfg observation_df).
  { rewrite (eligible_as_filter cfg restricted).
    assert (HK : group_keys (map customer_id restricted)
                 = eligible_customers cfg observation_df).
    { apply sorted_unique_ext.
      - apply group_keys_sorted.
      - apply eligible_sorted.
      - intros c. apply restricted_keys. }
    rewrite HK. apply filter_all_true. intros c Hc.
    unfold restricted. rewrite (rows_of_restrict c observation_df _ Hc).
    apply eligible_iff in Hc. destruct Hc as [Ht Hf].
    rewrite Ht. apply Z.leb_le in Hf. rewrite Hf. reflexivity. }
  split; [exact HE|].
  unfold features_of. rewrite HE. unfold restricted.
  rewrite restrict_idempotent. reflexivity.
Qed.

Lemma label_counts (P : list Z) (t : @FeatureTable R) :
  (forall c f, In (c, f) t ->
     churned f = Some (if negb (isin c P) then 1 else 0)) ->
  value_count 1 t + value_count 0 t = Z.of_nat (List.length t)
  /\ value_count 1 t
     = count_true (fun c => negb (isin c P)) (map fst t).
Proof.
  unfold value_count, count_true.
  induction t as [|[c f] t IH]; intros Hlab; [split; reflexivity|].
  destruct (IH (fun c' f' Hin => Hlab c' f' (or_intror Hin))) as [IH1 IH2].
  specialize (Hlab c f (or_introl eq_refl)).
  cbn [filter map fst snd]. rewrite Hlab.
  destruct (negb (isin c P)); cbn [Z.eqb Pos.eqb List.length]; lia.
Qed.

(** X21.  In the churn distribution of the report every row of the
    feature table is counted once: the rows labelled 1 and the rows
    labelled 0 add up to the number of rows, and those labelled 1 are as
    many as the eligible customers without a purchase line in the outcome
    window. *)
Theorem report_churn_counts cfg observation_df outcome_df :
  let features := features_of cfg observation_df outcome_df in
  value_count 1 features + value_count 0 features
  = Z.of_nat (List.length features)
  /\ value_count 1 features
     = count_true (fun c => negb (isin c (purchase_customers outcome_df)))
                  (eligible_customers cfg observation_df).
Proof.
  intros features.
  rewrite <- (feature_keys cfg observation_df outcome_df). fold features.
  apply label_counts. intros c f Hin. apply feature_rows_iff in Hin.
  destruct Hin as [Hel ->]. apply isin_In in Hel.
  cbn [feature_row churned]. rewrite Hel. reflexivity.
Qed.

Lemma feature_row_frequency_pos cfg observation_df outcome_df c f :
  In (c, f) (features_of cfg observation_df outcome_df) -> 1 <= frequency f.
Proof.
  intros Hin. apply feature_rows_iff in Hin. destruct Hin as [Hel ->].
  cbn [feature_row frequency].
  rewrite (rows_of_restrict c observation_df _ Hel).
  apply nunique_pos. intros Hnil. apply map_eq_nil in Hnil.
  exact (eligible_rows_nonempty cfg observation_df c Hel Hnil).
Qed.

End CohortFilterProperties.

Local Open Scope Q_scope.

Lemma velocity_Q_bounds (frequency d : Z) :
  (1 <= frequency)%Z -> (0 <= d)%Z ->
  0 < @velocity Q _ frequency d
  /\ @velocity Q _ frequency d <= 30 * inject_Z frequency
  /\ 0 < @avg_days Q _ frequency d.
Proof.
  intros Hf Hd.
  assert (Hf0 : 0 < inject_Z frequency).
  { change 0 with (inject_Z 0). rewrite <- Zlt_Qlt. lia. }
  assert (Hd0 : 0 < inject_Z (d + 1)).
  { change 0 with (inject_Z 0). rewrite <- Zlt_Qlt. lia. }
  assert (Hv : @velocity Q _ frequency d
               == 30 * inject_Z frequency / inject_Z (d + 1)).
  { unfold velocity. cbn [f_div f_of_Z Float64_Q]. field.
    intros Hz. rewrite Hz in Hd0. apply (Qlt_irrefl 0 Hd0). }
  split; [|split].
  - rewrite Hv. apply Qlt_shift_div_l; [assumption|]. rewrite Qmult_0_l.
    rewrite <- (Qmult_0_r 30). apply Qmult_lt_l; [reflexivity | assumption].
  - rewrite Hv. apply Qle_shift_div_r; [assumption|].
    change 30 with (inject_Z 30).
    rewrite <- !inject_Z_mult, <- Zle_Qle. nia.
  - unfold avg_days. cbn [f_div f_of_Z Float64_Q].
    apply Qlt_shift_div_l; [assumption|]. rewrite Qmult_0_l. assumption.
Qed.

(** X22.  In exact arithmetic, in every row built from the split windows
    [purchase_velocity] is positive and at most [30 * frequency] (reached
    when all purchases fall on one day), and
    [avg_days_between_purchases] is positive. *)
Theorem velocity_is_bounded cfg (df : @DataFrame Q) c f :
  let windows := split_by_time_window df (OBS_END cfg) (OUTCOME_START cfg) in
  In (c, f) (features_of cfg (fst windows) (snd windows)) ->
  exists v a,
    purchase_velocity f = Some v
    /\ avg_days_between_purchases f = Some a
    /\ 0 < v /\ v <= 30 * inject_Z (frequency f) /\ 0 < a.
Proof.
  intros windows Hin.
  pose proof (feature_row_frequency_pos cfg _ _ c f Hin) as Hfreq.
  destruct (velocity_columns cfg _ _ c f Hin) as [Hv Ha].
  destruct (feature_row_days cfg df c f Hin) as (a & m & Hle & _ & _ & Hd).
  fold windows in Hd. rewrite Hd in Hv, Ha. cbn [option_map] in Hv, Ha.
  assert (Hd0 : (0 <= days (m - a))%Z) by (apply days_nonneg; lia).
  destruct (velocity_Q_bounds (frequency f) (days (m - a)) Hfreq Hd0)
    as (H1 & H2 & H3).
  do 2 eexists. split; [exact Hv|]. split; [exact Ha|]. auto.
Qed.

Lemma stricter_thresholds_shrink_cohort_witness :
  In 7%Z (eligible_customers cfg_loose (fst retail_windows)).
Proof.
  apply (stricter_thresholds_shrink_cohort cfg_loose cfg
           (fst retail_windows) 7%Z).
  - reflexivity.
  - vm_compute. discriminate.
  - vm_compute. discriminate.
  - rewrite retail_eligible. left. reflexivity.
Defined.

Lemma velocity_is_bounded_witness :
  exists f v,
    In (7%Z, f) (features_of cfg (fst retail_windows) (snd retail_windows))
    /\ purchase_velocity f = Some v
    /\ 0 < v /\ v <= 30 * inject_Z (frequency f).
Proof.
  pose proof retail_row_7 as Hin.
  destruct (velocity_is_bounded cfg retail 7%Z _ Hin)
    as (v & a & Hv & _ & Hpos & Hle & _).
  eexists. exists v. split; [exact Hin|]. repeat split; assumption.
Defined.
